(** * react-parcel: the project scaffolder

    A shallow embedding of [src/index.ts] (the command line entry point,
    [validateNpmName] and [run]) and of [create-app] (the helpers
    [isWriteable] and [install], and the orchestrator [createApp] with the
    [rename] callback it hands to the template copier).

    Strings are byte strings: a JavaScript string is represented by the
    bytes of its UTF-8 encoding, which is also what ends up on disk. *)

From Stdlib Require Import ZArith Ascii String List Bool Lia.
From stdpp Require Import gmap strings list fin_maps.
Import ListNotations.

Open Scope string_scope.
Open Scope list_scope.

(** ** Characters and string helpers *)

Definition dquote_char : ascii := ascii_of_nat 34.
Definition backslash_char : ascii := ascii_of_nat 92.
Definition str1 (c : ascii) : string := String c EmptyString.
Definition dquote : string := str1 dquote_char.
Definition LF : string := str1 (ascii_of_nat 10).

(** [Array.prototype.join]: the elements separated by [sep]. *)
Fixpoint join (sep : string) (xs : list string) : string :=
  match xs with
  | [] => EmptyString
  | [x] => x
  | x :: rest => x +:+ sep +:+ join sep rest
  end.

(** ** JavaScript values, as far as the conditions of the program need them *)

Inductive jsval :=
| JsUndefined
| JsNull
| JsBool (b : bool)
| JsNum (n : Z)
| JsStr (s : string)
| JsArr (xs : list string).

(** ECMAScript [ToBoolean]: an object (here: an array) is true whatever it
    holds; a number is false when it is zero; a string when it is empty. *)
Definition ToBoolean (v : jsval) : bool :=
  match v with
  | JsUndefined | JsNull => false
  | JsBool b => b
  | JsNum n => negb (n =? 0)%Z
  | JsStr s => negb (s =? EmptyString)%string
  | JsArr _ => true
  end.

(** The text of a string value. *)
Definition text_of (v : jsval) : string :=
  match v with
  | JsStr s => s
  | _ => EmptyString
  end.

Definition js_length (xs : list string) : jsval := JsNum (Z.of_nat (length xs)).

(** [x || []] for an array that may be missing: a missing one is falsy, an
    array is truthy even when it is empty. *)
Definition or_empty (x : option (list string)) : list string :=
  match x with
  | None => []
  | Some xs => if ToBoolean (JsArr xs) then xs else []
  end.

(** ** The rename callback of the template copy (create-app, lines 142-155)

    The two first [case] labels of the [switch] share one body, which
    prefixes the name with a dot. *)
Definition rename (name : string) : string :=
  if (name =? "gitignore")%string || (name =? "eslintrc")%string
  then "." +:+ name
  else if (name =? "README-template.md")%string
  then "README.md"
  else name.

(** ** [JSON.stringify] with an indentation

    The serialisation algorithm of ECMAScript ([SerializeJSONProperty],
    [SerializeJSONObject], [SerializeJSONArray], [QuoteJSONString]) for the
    values the manifest is made of.  Numbers do not occur in the manifest
    and are left out. *)
Module Json.

#[warnings="-register-all"]
Inductive value :=
| Null
| Bool (b : bool)
| Str (s : string)
| Arr (items : list value)
| Obj (members : list (string * value)).

Definition hex_digit (n : nat) : ascii :=
  nth n (list_ascii_of_string "0123456789abcdef") "0"%char.

(** One code unit of [QuoteJSONString]. *)
Definition quote_char (c : ascii) : string :=
  let n := nat_of_ascii c in
  if Nat.eqb n 34 then str1 backslash_char +:+ dquote
  else if Nat.eqb n 92 then str1 backslash_char +:+ str1 backslash_char
  else if Nat.eqb n 8 then "\b"
  else if Nat.eqb n 9 then "\t"
  else if Nat.eqb n 10 then "\n"
  else if Nat.eqb n 12 then "\f"
  else if Nat.eqb n 13 then "\r"
  else if Nat.ltb n 32
       then "\u00" +:+ str1 (hex_digit (n / 16)) +:+ str1 (hex_digit (n mod 16))
  else str1 c.

Fixpoint quote_body (s : string) : string :=
  match s with
  | EmptyString => EmptyString
  | String c rest => quote_char c +:+ quote_body rest
  end.

Definition quote (s : string) : string := dquote +:+ quote_body s +:+ dquote.

Definition is_empty (s : string) : bool := (s =? EmptyString)%string.

(** [wrap opening closing gap indent stepback partial]: the final text of
    an object or array from the texts of its members. *)
Definition wrap (opening closing gap indent stepback : string)
    (partial : list string) : string :=
  match partial with
  | [] => opening +:+ closing
  | _ =>
      if is_empty gap
      then opening +:+ join "," partial +:+ closing
      else opening +:+ LF +:+ indent
           +:+ join ("," +:+ LF +:+ indent) partial
           +:+ LF +:+ stepback +:+ closing
  end.

Fixpoint serialize (gap indent : string) (v : value) : string :=
  match v with
  | Null => "null"
  | Bool true => "true"
  | Bool false => "false"
  | Str s => quote s
  | Arr items =>
      let inner := indent +:+ gap in
      wrap "[" "]" gap inner indent
        ((fix each (vs : list value) : list string :=
            match vs with
            | [] => []
            | x :: rest => serialize gap inner x :: each rest
            end) items)
  | Obj members =>
      let inner := indent +:+ gap in
      wrap "{" "}" gap inner indent
        ((fix each (kvs : list (string * value)) : list string :=
            match kvs with
            | [] => []
            | (k, x) :: rest =>
                (quote k +:+ ":" +:+ (if is_empty gap then EmptyString else " ")
                 +:+ serialize gap inner x) :: each rest
            end) members)
  end.

Fixpoint spaces (n : nat) : string :=
  match n with
  | O => EmptyString
  | S k => " " +:+ spaces k
  end.

(** [JSON.stringify(v, null, space)] for a numeric [space]: the gap is
    [min(10, space)] blanks. *)
Definition stringify (v : value) (space : nat) : string :=
  serialize (spaces (Nat.min 10 space)) EmptyString v.

End Json.

(** ** The process and its surroundings *)

(** Failure of a file system call. *)
Inductive fs_error :=
| EACCES
| ENOENT
| EOTHER (code : string).

(** What a promise is rejected with, or what a synchronous call throws. *)
Inductive reason :=
| CommandFailed (command : string)
| FsFailure (syscall : string) (e : fs_error) (path : string)
| TypeError (message : string)
| CopyFailure (message : string).

(** [reason.command], as read by the top-level rejection handler. *)
Definition reason_command (r : reason) : jsval :=
  match r with
  | CommandFailed command => JsStr command
  | _ => JsUndefined
  end.

(** The options object handed to [cpy]. *)
Record CpyOptions := {
  cpy_parents : bool;
  cpy_overwrite : bool;
  cpy_cwd : string;
  cpy_rename : string -> string
}.

(** Everything the program does to the outside, in the order it does it. *)
Inductive event :=
| ConsoleLog (args : list string)
| ConsoleLogReason (r : reason)
| ConsoleError (args : list string)
| FsAccess (path : string)
| FsMkdir (path : string) (recursive : bool)
| FsReaddir (path : string)
| Chdir (path : string)
| FsWriteFile (path data : string)
| Spawn (command : string) (args : list string) (stdio : string)
        (env : gmap string string)
| ChildClose (code : option Z)
| Cpy (pattern destination : string) (options : CpyOptions).

(** The result of [validate-npm-package-name]; [errors] and [warnings] are
    absent keys ([None]) or arrays. *)
Record NameValidation := {
  validForNewPackages : bool;
  validForOldPackages : bool;
  errors : option (list string);
  warnings : option (list string)
}.

(** The platform and the imported libraries: [path], [os], [chalk],
    [String.prototype.trim], the name of the program taken from its own
    package.json, and the naming rules of [validate-npm-package-name].
    [path_resolve] takes the current working directory first. *)
Record Host := {
  path_resolve : string -> string -> string;
  path_dirname : string -> string;
  path_basename : string -> string;
  path_join : list string -> string;
  os_EOL : string;
  module_dirname : string;
  process_env : gmap string string;
  str_trim : string -> string;
  chalk_green : string -> string;
  chalk_cyan : string -> string;
  chalk_red : string -> string;
  chalk_red_bold : string -> string;
  program_name : string;
  validateProjectName : string -> NameValidation
}.

(** How the outside answers: the file system calls ([None] is success), the
    exit code of a child process ([None] is the [null] code of a child
    killed by a signal), and the template copy. *)
Record World := {
  fs_access : string -> option fs_error;
  fs_mkdir : string -> option fs_error;
  fs_readdir : string -> fs_error + list string;
  os_chdir : string -> option fs_error;
  fs_writeFile : string -> option fs_error;
  child_exit : string -> list string -> option Z;
  cpy_copy : string -> string -> option reason
}.

(** The state the program itself changes: what its own
    [fs.writeFileSync] calls have put into files, and the working
    directory of the process.  [files] is not the whole file system: what
    the package manager and the template copy write is theirs. *)
Record Proc := {
  files : gmap string string;
  cwd : string
}.

(** ** Computations: emitted events, new state, and how the computation ended

    [Exit code] is [process.exit(code)]: nothing runs after it, not even a
    [catch].  [Throw] is an exception or a rejected promise.  An awaited
    promise is run to its end before the next statement starts, which is
    the sequencing of [bind]. *)
Inductive outcome (A : Type) :=
| Ret (a : A)
| Throw (r : reason)
| Exit (code : Z).
Arguments Ret {A} a.
Arguments Throw {A} r.
Arguments Exit {A} code.

Definition M (A : Type) : Type := Proc -> list event * Proc * outcome A.

Definition ret {A} (a : A) : M A := fun p => ([], p, Ret a).

Definition bind {A B} (m : M A) (k : A -> M B) : M B :=
  fun p =>
    match m p with
    | (t1, p1, Ret a) =>
        match k a p1 with
        | (t2, p2, o) => (t1 ++ t2, p2, o)
        end
    | (t1, p1, Throw r) => (t1, p1, Throw r)
    | (t1, p1, Exit c) => (t1, p1, Exit c)
    end.

Declare Scope monad_scope.
Delimit Scope monad_scope with monad.
Notation "x <- m ;; k" := (bind m (fun x => k))
  (at level 100, m at next level, right associativity) : monad_scope.
Notation "m ;;; k" := (bind m (fun _ => k))
  (at level 100, k at level 200, right associativity) : monad_scope.
Open Scope monad_scope.

Definition emit (e : event) : M unit := fun p => ([e], p, Ret tt).
Definition throw {A} (r : reason) : M A := fun p => ([], p, Throw r).
Definition process_exit {A} (code : Z) : M A := fun p => ([], p, Exit code).
Definition process_cwd : M string := fun p => ([], p, Ret (cwd p)).

(** [try { m } catch (err) { h err }] *)
Definition try_catch {A} (m : M A) (h : reason -> M A) : M A :=
  fun p =>
    match m p with
    | (t1, p1, Throw r) =>
        match h r p1 with
        | (t2, p2, o) => (t1 ++ t2, p2, o)
        end
    | other => other
    end.

(** [xs.forEach(f)] *)
Fixpoint forEach {A} (xs : list A) (f : A -> M unit) : M unit :=
  match xs with
  | [] => ret tt
  | x :: rest => f x ;;; forEach rest f
  end.

Definition console_log (args : list string) : M unit := emit (ConsoleLog args).
Definition console_error (args : list string) : M unit := emit (ConsoleError args).

Definition trace_of {A} (r : list event * Proc * outcome A) : list event := fst (fst r).
Definition proc_of {A} (r : list event * Proc * outcome A) : Proc := snd (fst r).
Definition outcome_of {A} (r : list event * Proc * outcome A) : outcome A := snd r.

(** ** The program *)

Section Scaffold.

Variable H : Host.
Variable W : World.

(** *** create-app: file system and process primitives *)

(** [fs.promises.access(directory, fs.constants.W_OK)] *)
Definition fs_promises_access (directory : string) : M unit :=
  emit (FsAccess directory) ;;;
  match fs_access W directory with
  | None => ret tt
  | Some e => throw (FsFailure "access" e directory)
  end.

(** [fs.promises.mkdir(root, { recursive: true })] *)
Definition fs_promises_mkdir (dir : string) : M unit :=
  emit (FsMkdir dir true) ;;;
  match fs_mkdir W dir with
  | None => ret tt
  | Some e => throw (FsFailure "mkdir" e dir)
  end.

(** [fs.readdirSync(root)] *)
Definition fs_readdirSync (dir : string) : M (list string) :=
  emit (FsReaddir dir) ;;;
  match fs_readdir W dir with
  | inr entries => ret entries
  | inl e => throw (FsFailure "scandir" e dir)
  end.

(** [process.chdir(root)] *)
Definition process_chdir (dir : string) : M unit :=
  emit (Chdir dir) ;;;
  match os_chdir W dir with
  | None => fun p => ([], {| files := files p; cwd := dir |}, Ret tt)
  | Some e => throw (FsFailure "chdir" e dir)
  end.

(** [fs.writeFileSync(path, data)]: the default flag replaces the content
    of an existing file. *)
Definition fs_writeFileSync (path data : string) : M unit :=
  emit (FsWriteFile path data) ;;;
  match fs_writeFile W path with
  | None => fun p => ([], {| files := <[path := data]> (files p); cwd := cwd p |}, Ret tt)
  | Some e => throw (FsFailure "open" e path)
  end.

(** [spawn(command, args, { stdio: 'inherit', env: {...} })] followed by
    the ['close'] event of the child; the value is the exit code.  The
    child is one that could be started: a failed start (the ['error']
    event, for which [install] has no listener) is not among the answers
    of a [World].  What the child does to the file system is its own
    affair and is not recorded in [files]. *)
Definition spawn (command : string) (args : list string) : M (option Z) :=
  emit (Spawn command args "inherit"
          (<["DISABLE_OPENCOLLECTIVE" := "1"]>
             (<["ADBLOCK" := "1"]> (process_env H)))) ;;;
  let code := child_exit W command args in
  emit (ChildClose code) ;;;
  ret code.

(** [cpy(pattern, destination, options)]: the call and whether it was
    rejected; the files the copy creates are not recorded in [files]. *)
Definition cpy (pattern destination : string) (options : CpyOptions) : M unit :=
  emit (Cpy pattern destination options) ;;;
  match cpy_copy W (cpy_cwd options) destination with
  | None => ret tt
  | Some r => throw r
  end.

(** *** create-app, lines 8-15 *)
Definition isWriteable (directory : string) : M bool :=
  try_catch (fs_promises_access directory ;;; ret true) (fun _ => ret false).

(** *** create-app, lines 17-50 *)

(** The condition [dependencies && dependencies.length]. *)
Definition has_dependencies (dependencies : option (list string)) : bool :=
  match dependencies with
  | None => ToBoolean JsNull
  | Some ds => ToBoolean (JsArr ds) && ToBoolean (js_length ds)
  end.

Definition install_args (dependencies : option (list string))
    (devDependencies : bool) : list string :=
  if has_dependencies dependencies
  then ["install"; "--save-exact"]
         ++ [if devDependencies then "--save-dev" else "--save"]
         ++ default [] dependencies
  else [].

Definition install (dependencies : option (list string))
    (devDependencies : bool) : M unit :=
  let args := install_args dependencies devDependencies in
  code <- spawn "npm" args ;;
  match code with
  | Some 0%Z => ret tt
  | _ => throw (CommandFailed ("npm " +:+ join " " args))
  end.

(** *** create-app, lines 52-179 *)

Definition packageJson (appName : string) : Json.value :=
  Json.Obj
    [ ("name", Json.Str appName);
      ("version", Json.Str "1.0.0");
      ("private", Json.Bool true);
      ("scripts",
        Json.Obj
          [ ("start",
              Json.Str ("parcel " +:+ dquote +:+ "./public/index.html" +:+ dquote
                        +:+ " --open -p 3000"));
            ("build",
              Json.Str ("parcel build " +:+ dquote +:+ "./public/index.html" +:+ dquote
                        +:+ " --out-dir build")) ]) ].

Definition dependencies : list string := ["react"; "react-dom"].
Definition devDependencies : list string :=
  ["@babel/preset-env"; "@babel/preset-react"; "parcel"].

Definition cpy_options : CpyOptions :=
  {| cpy_parents := true;
     cpy_overwrite := true;
     cpy_cwd := path_join H [module_dirname H; ".."; "template"];
     cpy_rename := rename |}.

Definition createApp (appPath : string) : M unit :=
  here <- process_cwd ;;
  let root := path_resolve H here appPath in
  console_log [" Root:  "; root] ;;;
  writable <- isWriteable (path_dirname H root) ;;
  (if negb writable
   then
     console_error
       ["The application path is not writable, please check folder permissions and try again."] ;;;
     console_error
       ["It is likely you do not have write permissions for this folder."] ;;;
     process_exit 1
   else ret tt) ;;;
  let appName := path_basename H root in
  fs_promises_mkdir root ;;;
  entries <- fs_readdirSync root ;;
  (if negb (ToBoolean (JsArr entries)) then process_exit 1 else ret tt) ;;;
  originalDirectory <- process_cwd ;;
  console_log ["Creating a new React app in " +:+ chalk_green H root +:+ "."] ;;;
  console_log [] ;;;
  process_chdir root ;;;
  fs_writeFileSync (path_join H [root; "package.json"])
    (Json.stringify (packageJson appName) 2 +:+ os_EOL H) ;;;
  (if ToBoolean (js_length dependencies)
   then
     console_log [] ;;;
     console_log ["Installing dependencies:"] ;;;
     forEach dependencies (fun dependency =>
       console_log ["- " +:+ chalk_cyan H dependency]) ;;;
     console_log [] ;;;
     install (Some dependencies) false
   else ret tt) ;;;
  (if ToBoolean (js_length devDependencies)
   then
     console_log [] ;;;
     console_log ["Installing devDependencies:"] ;;;
     forEach devDependencies (fun devDependency =>
       console_log ["- " +:+ chalk_cyan H devDependency]) ;;;
     console_log [] ;;;
     install (Some devDependencies) true
   else ret tt) ;;;
  console_log [] ;;;
  cpy "**" root cpy_options ;;;
  let cdpath :=
    if (path_join H [originalDirectory; appName] =? appPath)%string
    then appName else appPath in
  console_log [chalk_green H "Success!" +:+ " Created " +:+ appName +:+ " at " +:+ appPath] ;;;
  console_log ["Inside that directory, you can run several commands:"] ;;;
  console_log [] ;;;
  console_log [chalk_cyan H "  npm start"] ;;;
  console_log ["    Starts the development server."] ;;;
  console_log [] ;;;
  console_log [chalk_cyan H "  npm run build"] ;;;
  console_log ["    Builds the app for production."] ;;;
  console_log [] ;;;
  console_log ["We suggest that you begin by typing:"] ;;;
  console_log [] ;;;
  console_log [chalk_cyan H "  cd"; cdpath] ;;;
  console_log [chalk_cyan H "  npm start"] ;;;
  console_log [].

(** *** index.ts, lines 11-24 *)

Record NameCheck := {
  valid : bool;
  problems : option (list string)
}.

Definition validateNpmName (name : string) : NameCheck :=
  let nameValidation := validateProjectName H name in
  if validForNewPackages nameValidation
  then {| valid := true; problems := None |}
  else {| valid := false;
          problems := Some (or_empty (errors nameValidation)
                            ++ or_empty (warnings nameValidation)) |}.

(** *** index.ts, lines 34-77

    [projectPath] is the positional argument stored by the argument parser
    (a string, so the [typeof] test holds and it is trimmed). *)
Definition run (projectPath : string) : M unit :=
  let projectPath := str_trim H projectPath in
  (if negb (ToBoolean (JsStr projectPath))
   then
     console_log [] ;;;
     console_log ["Please specify the project directory:"] ;;;
     console_log ["  " +:+ chalk_cyan H (program_name H) +:+ " "
                  +:+ chalk_green H "<project-directory>"] ;;;
     console_log [] ;;;
     console_log ["For example:"] ;;;
     console_log ["  " +:+ chalk_cyan H (program_name H) +:+ " "
                  +:+ chalk_green H "my-react-parcel-app"] ;;;
     process_exit 1
   else ret tt) ;;;
  console_log ["Path : "; projectPath] ;;;
  here <- process_cwd ;;
  let resolvedProjectPath := path_resolve H here projectPath in
  console_log ["Resolved Path : "; resolvedProjectPath] ;;;
  let projectName := path_basename H resolvedProjectPath in
  console_log ["Project Name: "; projectName] ;;;
  let check := validateNpmName projectName in
  (if negb (valid check)
   then
     console_error
       ["Could not create a project called "
        +:+ chalk_red H (dquote +:+ projectName +:+ dquote)
        +:+ " because of npm naming restrictions:"] ;;;
     match problems check with
     | Some ps =>
         forEach ps (fun p =>
           console_error ["    " +:+ chalk_red_bold H "*" +:+ " " +:+ p])
     | None => throw (TypeError "Cannot read properties of undefined")
     end ;;;
     process_exit 1
   else ret tt) ;;;
  try_catch (createApp resolvedProjectPath) (fun reason => throw reason).

(** *** index.ts, lines 79-97: [run().then(...).catch(...)] *)
Definition main (projectPath : string) : M unit :=
  try_catch
    (run projectPath ;;;
     console_log [] ;;;
     console_log [] ;;;
     console_log [chalk_green H "Setup Complete"] ;;;
     console_log [])
    (fun reason =>
       console_log [] ;;;
       console_log ["Aborting installation."] ;;;
       (if ToBoolean (reason_command reason)
        then
          console_log ["  " +:+ chalk_cyan H (text_of (reason_command reason))
                       +:+ " has failed."]
        else
          console_log [chalk_red H "Unexpected error. Please report it as a bug:"] ;;;
          emit (ConsoleLogReason reason)) ;;;
       console_log [] ;;;
       process_exit 1).

End Scaffold.

(** *** create-app, lines 52-179, in two halves

    [createApp] cut after the manifest write: the first half goes from the
    start of the function to [fs.writeFileSync] and hands on the three
    names the second half uses ([root], [appName], [originalDirectory]);
    the second half is the installs, the template copy and the closing
    report. *)
Section TwoHalves.

Variable H : Host.
Variable W : World.

Definition createApp_until_manifest (appPath : string)
    : M (string * string * string) :=
  here <- process_cwd ;;
  let root := path_resolve H here appPath in
  console_log [" Root:  "; root] ;;;
  writable <- isWriteable W (path_dirname H root) ;;
  (if negb writable
   then
     console_error
       ["The application path is not writable, please check folder permissions and try again."] ;;;
     console_error
       ["It is likely you do not have write permissions for this folder."] ;;;
     process_exit 1
   else ret tt) ;;;
  let appName := path_basename H root in
  fs_promises_mkdir W root ;;;
  entries <- fs_readdirSync W root ;;
  (if negb (ToBoolean (JsArr entries)) then process_exit 1 else ret tt) ;;;
  originalDirectory <- process_cwd ;;
  console_log ["Creating a new React app in " +:+ chalk_green H root +:+ "."] ;;;
  console_log [] ;;;
  process_chdir W root ;;;
  fs_writeFileSync W (path_join H [root; "package.json"])
    (Json.stringify (packageJson appName) 2 +:+ os_EOL H) ;;;
  ret (root, appName, originalDirectory).

Definition createApp_after_manifest (appPath : string)
    (names : string * string * string) : M unit :=
  let '(root, appName, originalDirectory) := names in
  (if ToBoolean (js_length dependencies)
   then
     console_log [] ;;;
     console_log ["Installing dependencies:"] ;;;
     forEach dependencies (fun dependency =>
       console_log ["- " +:+ chalk_cyan H dependency]) ;;;
     console_log [] ;;;
     install H W (Some dependencies) false
   else ret tt) ;;;
  (if ToBoolean (js_length devDependencies)
   then
     console_log [] ;;;
     console_log ["Installing devDependencies:"] ;;;
     forEach devDependencies (fun devDependency =>
       console_log ["- " +:+ chalk_cyan H devDependency]) ;;;
     console_log [] ;;;
     install H W (Some devDependencies) true
   else ret tt) ;;;
  console_log [] ;;;
  cpy W "**" root (cpy_options H) ;;;
  let cdpath :=
    if (path_join H [originalDirectory; appName] =? appPath)%string
    then appName else appPath in
  console_log [chalk_green H "Success!" +:+ " Created " +:+ appName +:+ " at " +:+ appPath] ;;;
  console_log ["Inside that directory, you can run several commands:"] ;;;
  console_log [] ;;;
  console_log [chalk_cyan H "  npm start"] ;;;
  console_log ["    Starts the development server."] ;;;
  console_log [] ;;;
  console_log [chalk_cyan H "  npm run build"] ;;;
  console_log ["    Builds the app for production."] ;;;
  console_log [] ;;;
  console_log ["We suggest that you begin by typing:"] ;;;
  console_log [] ;;;
  console_log [chalk_cyan H "  cd"; cdpath] ;;;
  console_log [chalk_cyan H "  npm start"] ;;;
  console_log [].

End TwoHalves.

(** The status the process ends with. *)
Definition exit_status {A} (o : outcome A) : Z :=
  match o with
  | Ret _ => 0
  | Throw _ => 1
  | Exit code => code
  end.

(** ** A concrete platform and concrete worlds, to run the program on

    A POSIX-like [path], an identity [chalk], a trim of blanks, and a
    stand-in for the naming library that knows three of its rules (empty
    name, black-listed name, capital letters) and builds its result the way
    the library does: a name is valid for new packages when it has neither
    errors nor warnings, and an empty list is dropped from the result. *)
Module Sample.

Fixpoint split_on (sep : ascii) (s cur : string) : list string :=
  match s with
  | EmptyString => [cur]
  | String c rest =>
      if Ascii.eqb c sep then cur :: split_on sep rest EmptyString
      else split_on sep rest (cur +:+ str1 c)
  end.

Definition slash : ascii := ascii_of_nat 47.

Definition segments (s : string) : list string := split_on slash s EmptyString.

Definition basename (s : string) : string := List.last (segments s) EmptyString.

Definition dirname (s : string) : string := join "/" (removelast (segments s)).

Definition resolve (cwd p : string) : string :=
  match p with
  | String c _ => if Ascii.eqb c slash then p else cwd +:+ "/" +:+ p
  | EmptyString => cwd
  end.

Fixpoint trim_left (s : string) : string :=
  match s with
  | String c rest => if Ascii.eqb c " "%char then trim_left rest else s
  | EmptyString => EmptyString
  end.

Fixpoint trim_right (s : string) : string :=
  match s with
  | EmptyString => EmptyString
  | String c rest =>
      match trim_right rest with
      | EmptyString => if Ascii.eqb c " "%char then EmptyString else str1 c
      | kept => String c kept
      end
  end.

Definition trim (s : string) : string := trim_right (trim_left s).

Definition lower_char (c : ascii) : ascii :=
  let n := nat_of_ascii c in
  if Nat.leb 65 n && Nat.leb n 90 then ascii_of_nat (n + 32) else c.

Fixpoint toLowerCase (s : string) : string :=
  match s with
  | EmptyString => EmptyString
  | String c rest => String (lower_char c) (toLowerCase rest)
  end.

Definition blacklist : list string := ["node_modules"; "favicon.ico"].

Definition drop_if_empty (xs : list string) : option (list string) :=
  match xs with
  | [] => None
  | _ => Some xs
  end.

Definition done (warns errs : list string) : NameValidation :=
  {| validForNewPackages :=
       Nat.eqb (length errs) 0 && Nat.eqb (length warns) 0;
     validForOldPackages := Nat.eqb (length errs) 0;
     errors := drop_if_empty errs;
     warnings := drop_if_empty warns |}.

Definition validate (name : string) : NameValidation :=
  let errs :=
    (if Nat.eqb (String.length name) 0
     then ["name length must be greater than zero"] else [])
    ++ flat_map (fun blacklistedName =>
         if String.eqb (toLowerCase name) blacklistedName
         then [blacklistedName +:+ " is a blacklisted name"] else []) blacklist in
  let warns :=
    if String.eqb (toLowerCase name) name then []
    else ["name can no longer contain capital letters"] in
  done warns errs.

Definition host : Host :=
  {| path_resolve := resolve;
     path_dirname := dirname;
     path_basename := basename;
     path_join := join "/";
     os_EOL := LF;
     module_dirname := "/usr/lib/node_modules/react-parcel/dist";
     process_env := {[ "HOME" := "/home/dev" ]};
     str_trim := trim;
     chalk_green := fun s => s;
     chalk_cyan := fun s => s;
     chalk_red := fun s => s;
     chalk_red_bold := fun s => s;
     program_name := "react-parcel";
     validateProjectName := validate |}.

(** Every call succeeds, every child exits with 0, and a directory listing
    is empty. *)
Definition fair_weather : World :=
  {| fs_access := fun _ => None;
     fs_mkdir := fun _ => None;
     fs_readdir := fun _ => inr [];
     os_chdir := fun _ => None;
     fs_writeFile := fun _ => None;
     child_exit := fun _ _ => Some 0%Z;
     cpy_copy := fun _ _ => None |}.

(** As [fair_weather], but no directory is writable. *)
Definition read_only : World :=
  {| fs_access := fun _ => Some EACCES;
     fs_mkdir := fun _ => None;
     fs_readdir := fun _ => inr [];
     os_chdir := fun _ => None;
     fs_writeFile := fun _ => None;
     child_exit := fun _ _ => Some 0%Z;
     cpy_copy := fun _ _ => None |}.

(** As [fair_weather], but every child process exits with [code]. *)
Definition failing_npm (code : option Z) : World :=
  {| fs_access := fun _ => None;
     fs_mkdir := fun _ => None;
     fs_readdir := fun _ => inr [];
     os_chdir := fun _ => None;
     fs_writeFile := fun _ => None;
     child_exit := fun _ _ => code;
     cpy_copy := fun _ _ => None |}.

Definition start : Proc := {| files := ∅; cwd := "/home/dev" |}.

End Sample.

(** ** Observations on a trace *)

Definition is_console (e : event) : bool :=
  match e with
  | ConsoleLog _ | ConsoleLogReason _ | ConsoleError _ => true
  | _ => false
  end.

(** The trace without the console output. *)
Definition effects (t : list event) : list event :=
  List.filter (fun e => negb (is_console e)) t.

(** An event that changes the file system, the working directory, or
    starts another program that can. *)
Definition mutates (e : event) : bool :=
  match e with
  | FsMkdir _ _ | Chdir _ | FsWriteFile _ _ | Spawn _ _ _ _ | Cpy _ _ _ => true
  | _ => false
  end.

Definition is_spawn (e : event) : bool :=
  match e with
  | Spawn _ _ _ _ => true
  | _ => false
  end.

Definition spawned (t : list event) : nat := length (List.filter is_spawn t).

Definition is_write (e : event) : bool :=
  match e with
  | FsWriteFile _ _ => true
  | _ => false
  end.

Definition writes (t : list event) : list event := List.filter is_write t.

(** The stages of a scaffold run. *)
Inductive stage :=
| CheckWritable
| CreateDirectory
| WriteManifest
| InstallRuntime
| InstallDevelopment
| CopyTemplate.

Definition stage_of (e : event) : option stage :=
  match e with
  | FsAccess _ => Some CheckWritable
  | FsMkdir _ _ => Some CreateDirectory
  | FsWriteFile _ _ => Some WriteManifest
  | Spawn _ args _ _ =>
      if existsb (String.eqb "--save-dev") args
      then Some InstallDevelopment else Some InstallRuntime
  | Cpy _ _ _ => Some CopyTemplate
  | _ => None
  end.

Definition stages (t : list event) : list stage := omap stage_of t.

(** The rename rules as the specification gives them: a table from the
    literal source file name to the destination file name. *)
Definition rename_rules : gmap string string :=
  {[ "gitignore" := ".gitignore";
     "eslintrc" := ".eslintrc";
     "README-template.md" := "README.md" ]}.

Definition rename_by_rules (name : string) : string :=
  default name (rename_rules !! name).

(** The messages under a key of the naming library's result: the array
    when the key is present, none when it is absent. *)
Definition messages (x : option (list string)) : list string :=
  match x with
  | Some xs => xs
  | None => []
  end.

(** Run the stages of a plan in order and stop after the first that
    fails: the fail-fast pipeline of the specification. *)
Fixpoint fail_fast (plan : list (stage * bool)) : list stage :=
  match plan with
  | [] => []
  | (s, ok) :: rest => s :: (if ok then fail_fast rest else [])
  end.

(** How many stages of a plan are entered. *)
Fixpoint progress (plan : list (stage * bool)) : nat :=
  match plan with
  | [] => 0
  | (_, ok) :: rest => S (if ok then progress rest else 0)
  end.

Definition succeeded {A} (r : option A) : bool :=
  match r with
  | None => true
  | Some _ => false
  end.

Definition listed {A B} (r : A + B) : bool :=
  match r with
  | inr _ => true
  | inl _ => false
  end.

Definition exited_zero (code : option Z) : bool :=
  match code with
  | Some 0%Z => true
  | _ => false
  end.

Section Expected.

Variable H : Host.
Variable W : World.

Definition runtime_args : list string :=
  ["install"; "--save-exact"; "--save"; "react"; "react-dom"].

Definition development_args : list string :=
  ["install"; "--save-exact"; "--save-dev";
   "@babel/preset-env"; "@babel/preset-react"; "parcel"].

Definition child_env : gmap string string :=
  <["DISABLE_OPENCOLLECTIVE" := "1"]> (<["ADBLOCK" := "1"]> (process_env H)).

Definition manifest_path (root : string) : string :=
  path_join H [root; "package.json"].

Definition manifest_data (root : string) : string :=
  Json.stringify (packageJson (path_basename H root)) 2 +:+ os_EOL H.

(** What each stage of a run rooted at [root] meets in the world [W].  The
    directory stage is the creation of the directory, its listing and the
    switch of the working directory into it. *)
Definition plan (root : string) : list (stage * bool) :=
  [ (CheckWritable, succeeded (fs_access W (path_dirname H root)));
    (CreateDirectory,
      succeeded (fs_mkdir W root) && listed (fs_readdir W root)
      && succeeded (os_chdir W root));
    (WriteManifest, succeeded (fs_writeFile W (manifest_path root)));
    (InstallRuntime, exited_zero (child_exit W "npm" runtime_args));
    (InstallDevelopment, exited_zero (child_exit W "npm" development_args));
    (CopyTemplate, succeeded (cpy_copy W (cpy_cwd (cpy_options H)) root)) ].

(** Everything a complete run rooted at [root] does besides printing. *)
Definition script (root : string) : list event :=
  [ FsAccess (path_dirname H root);
    FsMkdir root true;
    FsReaddir root;
    Chdir root;
    FsWriteFile (manifest_path root) (manifest_data root);
    Spawn "npm" runtime_args "inherit" child_env;
    ChildClose (child_exit W "npm" runtime_args);
    Spawn "npm" development_args "inherit" child_env;
    ChildClose (child_exit W "npm" development_args);
    Cpy "**" root (cpy_options H) ].

(** Every problem the naming library found for [name], read off the
    library's own result: the messages under [errors], then the messages
    under [warnings]. *)
Definition all_problems (name : string) : list string :=
  messages (errors (validateProjectName H name))
  ++ messages (warnings (validateProjectName H name)).

(** The shape of the naming library's result: it accepts a name for new
    packages exactly when it has no error and no warning for it. *)
Definition library_result_shape (name : string) : Prop :=
  validForNewPackages (validateProjectName H name) = true
  <-> messages (errors (validateProjectName H name)) = []
      /\ messages (warnings (validateProjectName H name)) = [].

(** What a run prints when the project name is refused. *)
Definition name_errors (projectPath : string) (p : Proc) : list event :=
  let path := str_trim H projectPath in
  let resolved := path_resolve H (cwd p) path in
  let projectName := path_basename H resolved in
  [ ConsoleLog ["Path : "; path];
    ConsoleLog ["Resolved Path : "; resolved];
    ConsoleLog ["Project Name: "; projectName];
    ConsoleError
      ["Could not create a project called "
       +:+ chalk_red H (dquote +:+ projectName +:+ dquote)
       +:+ " because of npm naming restrictions:"] ]
  ++ map (fun problem =>
            ConsoleError ["    " +:+ chalk_red_bold H "*" +:+ " " +:+ problem])
       (all_problems projectName).

(** Whether [run] gets as far as calling [createApp]: the trimmed argument
    is not empty and the name is accepted. *)
Definition reaches_createApp (projectPath : string) (p : Proc) : bool :=
  ToBoolean (JsStr (str_trim H projectPath))
  && validForNewPackages
       (validateProjectName H
          (path_basename H (path_resolve H (cwd p) (str_trim H projectPath)))).

(** How many entries of [script] a run rooted at [root] gets through: it
    stops after the first call that fails. *)
Definition steps_done (root : string) : nat :=
  if negb (succeeded (fs_access W (path_dirname H root))) then 1
  else if negb (succeeded (fs_mkdir W root)) then 2
  else if negb (listed (fs_readdir W root)) then 3
  else if negb (succeeded (os_chdir W root)) then 4
  else if negb (succeeded (fs_writeFile W (manifest_path root))) then 5
  else if negb (exited_zero (child_exit W "npm" runtime_args)) then 7
  else if negb (exited_zero (child_exit W "npm" development_args)) then 9
  else 10.

End Expected.

(** What [createApp] prints, and the one check it makes, when the parent
    of the target is not writable. *)
Definition unwritable_report (root parent : string) : list event :=
  [ ConsoleLog [" Root:  "; root];
    FsAccess parent;
    ConsoleError
      ["The application path is not writable, please check folder permissions and try again."];
    ConsoleError
      ["It is likely you do not have write permissions for this folder."] ].

Definition all_stages : list stage :=
  [CheckWritable; CreateDirectory; WriteManifest; InstallRuntime;
   InstallDevelopment; CopyTemplate].

Definition escaped_dquote : string := str1 backslash_char +:+ dquote.

(** The manifest of a project called [name], as the text of a JSON
    document indented by two blanks. *)
Definition manifest_text (name : string) : string :=
  "{" +:+ LF
  +:+ "  " +:+ dquote +:+ "name" +:+ dquote +:+ ": " +:+ Json.quote name +:+ "," +:+ LF
  +:+ "  " +:+ dquote +:+ "version" +:+ dquote +:+ ": "
      +:+ dquote +:+ "1.0.0" +:+ dquote +:+ "," +:+ LF
  +:+ "  " +:+ dquote +:+ "private" +:+ dquote +:+ ": true," +:+ LF
  +:+ "  " +:+ dquote +:+ "scripts" +:+ dquote +:+ ": {" +:+ LF
  +:+ "    " +:+ dquote +:+ "start" +:+ dquote +:+ ": "
      +:+ dquote +:+ "parcel " +:+ escaped_dquote +:+ "./public/index.html"
      +:+ escaped_dquote +:+ " --open -p 3000" +:+ dquote +:+ "," +:+ LF
  +:+ "    " +:+ dquote +:+ "build" +:+ dquote +:+ ": "
      +:+ dquote +:+ "parcel build " +:+ escaped_dquote +:+ "./public/index.html"
      +:+ escaped_dquote +:+ " --out-dir build" +:+ dquote +:+ LF
  +:+ "  }" +:+ LF
  +:+ "}".

(** ** What the command line run prints at its ends *)

(** The usage text, printed when no project directory is given. *)
Definition usage_report (H : Host) : list event :=
  [ ConsoleLog [];
    ConsoleLog ["Please specify the project directory:"];
    ConsoleLog ["  " +:+ chalk_cyan H (program_name H) +:+ " "
                +:+ chalk_green H "<project-directory>"];
    ConsoleLog [];
    ConsoleLog ["For example:"];
    ConsoleLog ["  " +:+ chalk_cyan H (program_name H) +:+ " "
                +:+ chalk_green H "my-react-parcel-app"] ].

(** The three lines that open the output of a run with an argument. *)
Definition run_banner (H : Host) (projectPath : string) (p : Proc) : list event :=
  [ ConsoleLog ["Path : "; str_trim H projectPath];
    ConsoleLog ["Resolved Path : "; path_resolve H (cwd p) (str_trim H projectPath)];
    ConsoleLog ["Project Name: ";
                path_basename H (path_resolve H (cwd p) (str_trim H projectPath))] ].

(** The report of the rejection handler for a failed command. *)
Definition command_failure_report (H : Host) (command : string) : list event :=
  [ ConsoleLog [];
    ConsoleLog ["Aborting installation."];
    ConsoleLog ["  " +:+ chalk_cyan H command +:+ " has failed."];
    ConsoleLog [] ].

(** A world as [Sample.fair_weather] in which no directory can be
    created. *)
Definition mkdir_fails : World :=
  {| fs_access := fun _ => None;
     fs_mkdir := fun _ => Some (EOTHER "ENOSPC");
     fs_readdir := fun _ => inr [];
     os_chdir := fun _ => None;
     fs_writeFile := fun _ => None;
     child_exit := fun _ _ => Some 0%Z;
     cpy_copy := fun _ _ => None |}.

(** The lines that close the output of a successful run. *)
Definition setup_complete_report (H : Host) : list event :=
  [ ConsoleLog []; ConsoleLog [];
    ConsoleLog [chalk_green H "Setup Complete"];
    ConsoleLog [] ].

(** The report of the rejection handler for a rejection without a
    command. *)
Definition unexpected_error_report (H : Host) (r : reason) : list event :=
  [ ConsoleLog [];
    ConsoleLog ["Aborting installation."];
    ConsoleLog [chalk_red H "Unexpected error. Please report it as a bug:"];
    ConsoleLogReason r;
    ConsoleLog [] ].

(** The directory the closing hint tells the user to change into. *)
Definition cd_hint (H : Host) (appPath : string) (p : Proc) : string :=
  let appName := path_basename H (path_resolve H (cwd p) appPath) in
  if (path_join H [cwd p; appName] =? appPath)%string then appName else appPath.

(** A character that [QuoteJSONString] copies as it is: no control
    character, no double quote, no backslash. *)
Definition plain_char (c : ascii) : bool :=
  let n := nat_of_ascii c in
  Nat.leb 32 n && negb (Nat.eqb n 34) && negb (Nat.eqb n 92).

Fixpoint plain (s : string) : bool :=
  match s with
  | EmptyString => true
  | String c rest => plain_char c && plain rest
  end.

(** The text of the manifest after the value of [name]. *)
Definition manifest_rest : string :=
  "," +:+ LF
  +:+ "  " +:+ dquote +:+ "version" +:+ dquote +:+ ": "
      +:+ dquote +:+ "1.0.0" +:+ dquote +:+ "," +:+ LF
  +:+ "  " +:+ dquote +:+ "private" +:+ dquote +:+ ": true," +:+ LF
  +:+ "  " +:+ dquote +:+ "scripts" +:+ dquote +:+ ": {" +:+ LF
  +:+ "    " +:+ dquote +:+ "start" +:+ dquote +:+ ": "
      +:+ dquote +:+ "parcel " +:+ escaped_dquote +:+ "./public/index.html"
      +:+ escaped_dquote +:+ " --open -p 3000" +:+ dquote +:+ "," +:+ LF
  +:+ "    " +:+ dquote +:+ "build" +:+ dquote +:+ ": "
      +:+ dquote +:+ "parcel build " +:+ escaped_dquote +:+ "./public/index.html"
      +:+ escaped_dquote +:+ " --out-dir build" +:+ dquote +:+ LF
  +:+ "  }" +:+ LF
  +:+ "}".

(** * Properties *)

(** ** The model at work on small inputs *)

Example rename_gitignore : rename "gitignore" = ".gitignore".
Proof. reflexivity. Qed.

Example rename_nested_path : rename "docs/gitignore" = "docs/gitignore".
Proof. reflexivity. Qed.

Example rename_with_extension : rename "gitignore.txt" = "gitignore.txt".
Proof. reflexivity. Qed.

Example stringify_nested :
  Json.stringify (Json.Obj [("a", Json.Bool true); ("b", Json.Obj [("c", Json.Str "x")])]) 2
  = "{" +:+ LF +:+ "  " +:+ dquote +:+ "a" +:+ dquote +:+ ": true," +:+ LF
    +:+ "  " +:+ dquote +:+ "b" +:+ dquote +:+ ": {" +:+ LF
    +:+ "    " +:+ dquote +:+ "c" +:+ dquote +:+ ": " +:+ dquote +:+ "x" +:+ dquote +:+ LF
    +:+ "  }" +:+ LF +:+ "}".
Proof. reflexivity. Qed.

Example stringify_empty_object : Json.stringify (Json.Obj []) 2 = "{}".
Proof. reflexivity. Qed.

Example quote_escapes :
  Json.quote ("a" +:+ dquote +:+ "b" +:+ LF)
  = dquote +:+ "a" +:+ str1 backslash_char +:+ dquote +:+ "b\n" +:+ dquote.
Proof. reflexivity. Qed.

Example sample_basename : Sample.basename "/home/dev/my-app" = "my-app".
Proof. reflexivity. Qed.

Example sample_dirname : Sample.dirname "/home/dev/my-app" = "/home/dev".
Proof. reflexivity. Qed.

Example sample_validate_node_modules :
  Sample.validate "NODE_MODULES"
  = {| validForNewPackages := false;
       validForOldPackages := false;
       errors := Some ["node_modules is a blacklisted name"];
       warnings := Some ["name can no longer contain capital letters"] |}.
Proof. reflexivity. Qed.

Example sample_validate_my_app :
  validForNewPackages (Sample.validate "my-app") = true.
Proof. reflexivity. Qed.

(** ** The rename callback *)

Lemma rename_rules_lookup name :
  rename_rules !! name
  = if (name =? "gitignore")%string then Some ".gitignore"
    else if (name =? "eslintrc")%string then Some ".eslintrc"
    else if (name =? "README-template.md")%string then Some "README.md"
    else None.
Proof.
  unfold rename_rules.
  destruct (String.eqb_spec name "gitignore") as [->|Hg]; [reflexivity|].
  rewrite lookup_insert_ne by congruence.
  destruct (String.eqb_spec name "eslintrc") as [->|He]; [reflexivity|].
  rewrite lookup_insert_ne by congruence.
  destruct (String.eqb_spec name "README-template.md") as [->|Hr]; [reflexivity|].
  apply lookup_singleton_ne. congruence.
Qed.

(** C3. The destination base name of a copied file: [.gitignore] for
    exactly [gitignore], [.eslintrc] for exactly [eslintrc], [README.md]
    for exactly [README-template.md], and the source name itself for every
    other name; the callback handed to the template copy is this function,
    and it compares the whole base name it is given. *)
Theorem rename_follows_rules (H : Host) (name : string) :
  cpy_rename (cpy_options H) = rename
  /\ rename name = rename_by_rules name
  /\ rename "gitignore" = ".gitignore"
  /\ rename "eslintrc" = ".eslintrc"
  /\ rename "README-template.md" = "README.md"
  /\ rename name
     = if decide (name = "gitignore") then ".gitignore"
       else if decide (name = "eslintrc") then ".eslintrc"
       else if decide (name = "README-template.md") then "README.md"
       else name.
Proof.
  split; [reflexivity|].
  split.
  { unfold rename_by_rules. rewrite rename_rules_lookup. unfold rename.
    destruct (String.eqb_spec name "gitignore") as [->|Hg]; [reflexivity|].
    destruct (String.eqb_spec name "eslintrc") as [->|He]; [reflexivity|].
    destruct (String.eqb_spec name "README-template.md"); reflexivity. }
  repeat (split; [reflexivity|]).
  unfold rename.
  destruct (String.eqb_spec name "gitignore") as [->|Hg]; [reflexivity|].
  destruct (String.eqb_spec name "eslintrc") as [->|He]; [reflexivity|].
  destruct (String.eqb_spec name "README-template.md") as [->|Hr]; [reflexivity|].
  cbn. repeat case_decide; congruence.
Qed.

(** No destination name of the rule table is a source name of it. *)
Lemma rename_rules_outputs_unmatched (k v : string) :
  rename_rules !! k = Some v -> rename_rules !! v = None.
Proof.
  rewrite rename_rules_lookup.
  destruct (k =? "gitignore")%string; [intros [= <-]; reflexivity|].
  destruct (k =? "eslintrc")%string; [intros [= <-]; reflexivity|].
  destruct (k =? "README-template.md")%string; [intros [= <-]; reflexivity|].
  discriminate.
Qed.

(** C10. Renaming is idempotent: a renamed name is left as it is, since
    none of [.gitignore], [.eslintrc] and [README.md] is matched. *)
Theorem rename_idempotent (name : string) :
  rename (rename name) = rename name
  /\ rename ".gitignore" = ".gitignore"
  /\ rename ".eslintrc" = ".eslintrc"
  /\ rename "README.md" = "README.md".
Proof.
  split; [|repeat split; reflexivity].
  unfold rename at 2.
  destruct (String.eqb_spec name "gitignore") as [->|Hg]; [reflexivity|].
  destruct (String.eqb_spec name "eslintrc") as [->|He]; [reflexivity|].
  destruct (String.eqb_spec name "README-template.md") as [->|Hr]; [reflexivity|].
  cbn [orb]. unfold rename.
  destruct (String.eqb_spec name "gitignore"); [contradiction|].
  destruct (String.eqb_spec name "eslintrc"); [contradiction|].
  destruct (String.eqb_spec name "README-template.md"); [contradiction|].
  reflexivity.
Qed.

(** ** The name validator *)

Lemma or_empty_messages (x : option (list string)) : or_empty x = messages x.
Proof. destruct x; reflexivity. Qed.

Section NameValidator.

Variable H : Host.

(** C6. A name the library accepts for new packages gives
    [{valid: true}]; any other name gives [{valid: false}] whose problems
    are every error message of the library followed by every warning
    message, in the library's order, none left out.  With a library that
    accepts a name exactly when it has no error and no warning for it, a
    name that breaks no rule is valid, and a name that breaks a rule is
    invalid with a list of problems that is not empty. *)
Theorem validateNpmName_reports_all (name : string) :
  library_result_shape H name ->
  (validForNewPackages (validateProjectName H name) = true ->
     validateNpmName H name = {| valid := true; problems := None |})
  /\ (validForNewPackages (validateProjectName H name) = false ->
        valid (validateNpmName H name) = false
        /\ problems (validateNpmName H name)
           = Some (messages (errors (validateProjectName H name))
                   ++ messages (warnings (validateProjectName H name)))
        /\ problems (validateNpmName H name) <> Some [])
  /\ (all_problems H name = [] ->
        validateNpmName H name = {| valid := true; problems := None |})
  /\ (all_problems H name <> [] ->
        valid (validateNpmName H name) = false
        /\ problems (validateNpmName H name) = Some (all_problems H name)
        /\ (forall e, In e (messages (errors (validateProjectName H name))) ->
              exists before after,
                problems (validateNpmName H name)
                = Some (before ++ e :: after
                        ++ messages (warnings (validateProjectName H name))))
        /\ (forall w, In w (messages (warnings (validateProjectName H name))) ->
              exists before after,
                problems (validateNpmName H name)
                = Some (messages (errors (validateProjectName H name))
                        ++ before ++ w :: after))).
Proof.
  intros Hshape. unfold library_result_shape in Hshape.
  assert (Hinvalid : validForNewPackages (validateProjectName H name) = false ->
                     problems (validateNpmName H name) = Some (all_problems H name)
                     /\ valid (validateNpmName H name) = false).
  { intros Hv. unfold validateNpmName, all_problems. rewrite Hv.
    cbn [valid problems]. now rewrite !or_empty_messages. }
  assert (Hvalid : validForNewPackages (validateProjectName H name) = true ->
                   validateNpmName H name = {| valid := true; problems := None |}).
  { intros Hv. unfold validateNpmName. now rewrite Hv. }
  split; [exact Hvalid|].
  split.
  { intros Hv. destruct (Hinvalid Hv) as [Hproblems Hflag].
    split; [exact Hflag|]. split; [exact Hproblems|].
    rewrite Hproblems. intros [= Hnone]. unfold all_problems in Hnone.
    apply app_eq_nil in Hnone. apply Hshape in Hnone. congruence. }
  split.
  { intros Hnone. apply Hvalid, Hshape. unfold all_problems in Hnone.
    now apply app_eq_nil in Hnone. }
  intros Hsome.
  assert (Hv : validForNewPackages (validateProjectName H name) = false).
  { destruct (validForNewPackages (validateProjectName H name)) eqn:Hv; [|reflexivity].
    exfalso. apply Hsome. unfold all_problems.
    destruct (proj1 Hshape eq_refl) as [-> ->]. reflexivity. }
  destruct (Hinvalid Hv) as [Hproblems Hflag].
  split; [exact Hflag|]. split; [exact Hproblems|].
  rewrite Hproblems. unfold all_problems. split.
  - intros e He. apply in_split in He as (before & after & ->).
    exists before, after. now rewrite <- app_assoc.
  - intros w Hw. apply in_split in Hw as (before & after & ->).
    exists before, after. reflexivity.
Qed.

End NameValidator.

Lemma validateNpmName_reports_all_witness :
  library_result_shape Sample.host "NODE_MODULES"
  /\ validateNpmName Sample.host "NODE_MODULES"
     = {| valid := false;
          problems := Some ["node_modules is a blacklisted name";
                            "name can no longer contain capital letters"] |}.
Proof.
  assert (Hshape : library_result_shape Sample.host "NODE_MODULES").
  { split; [intros Hv; vm_compute in Hv; discriminate Hv|].
    intros [He _]. vm_compute in He. discriminate He. }
  split; [exact Hshape|].
  destruct (validateNpmName_reports_all Sample.host "NODE_MODULES" Hshape)
    as (_ & Hbad & _).
  destruct (Hbad eq_refl) as (Hflag & Hproblems & _).
  destruct (validateNpmName Sample.host "NODE_MODULES") as [v ps].
  cbn [valid problems] in Hflag, Hproblems. rewrite Hflag, Hproblems. reflexivity.
Defined.

(** ** The writability check *)

Lemma isWriteable_result (W : World) (directory : string) (p : Proc) :
  isWriteable W directory p
  = ([FsAccess directory], p, Ret (succeeded (fs_access W directory))).
Proof.
  unfold isWriteable, try_catch, fs_promises_access, bind, emit, ret, throw.
  destruct (fs_access W directory); reflexivity.
Qed.

(** ** The installer *)

Lemma install_result (H : Host) (W : World) (deps : option (list string))
    (dev : bool) (p : Proc) :
  install H W deps dev p
  = ([Spawn "npm" (install_args deps dev) "inherit" (child_env H);
      ChildClose (child_exit W "npm" (install_args deps dev))],
     p,
     if exited_zero (child_exit W "npm" (install_args deps dev))
     then Ret tt
     else Throw (CommandFailed ("npm " +:+ join " " (install_args deps dev)))).
Proof.
  unfold install, spawn, bind, emit, ret, throw, child_env.
  destruct (child_exit W "npm" (install_args deps dev)) as [[|c|c]|]; reflexivity.
Qed.

Lemma install_args_nothing (deps : option (list string)) (dev : bool) :
  deps = None \/ deps = Some [] -> install_args deps dev = [].
Proof. intros [-> | ->]; reflexivity. Qed.

Lemma install_args_packages (d : string) (ds : list string) (dev : bool) :
  install_args (Some (d :: ds)) dev
  = "install" :: "--save-exact"
      :: (if dev then "--save-dev" else "--save") :: d :: ds.
Proof.
  unfold install_args, has_dependencies, ToBoolean, js_length.
  cbn [length]. rewrite Nat2Z.inj_succ.
  destruct (Z.eqb_spec (Z.succ (Z.of_nat (length ds))) 0); [lia|].
  reflexivity.
Qed.

(** C1, as the code has it. With [null] or an empty package list the
    installer still starts the package manager, once and with no argument
    at all; the call resolves when that child exits with 0 and is rejected
    with the command ["npm "] otherwise. *)
Theorem install_nothing_still_spawns (H : Host) (W : World)
    (deps : option (list string)) (dev : bool) (p : Proc) :
  deps = None \/ deps = Some [] ->
  install H W deps dev p
  = ([Spawn "npm" [] "inherit" (child_env H); ChildClose (child_exit W "npm" [])],
     p,
     if exited_zero (child_exit W "npm" [])
     then Ret tt else Throw (CommandFailed "npm "))
  /\ spawned (trace_of (install H W deps dev p)) = 1.
Proof.
  intros Hnone. rewrite install_result, (install_args_nothing deps dev Hnone).
  split; reflexivity.
Qed.

Lemma install_nothing_still_spawns_witness :
  (Some ([] : list string) = None \/ Some ([] : list string) = Some [])
  /\ spawned (trace_of (install Sample.host Sample.fair_weather (Some []) false
                          Sample.start)) = 1.
Proof.
  split; [right; reflexivity|].
  apply (install_nothing_still_spawns Sample.host Sample.fair_weather (Some []) false
           Sample.start).
  right; reflexivity.
Defined.

(** C1 as stated fails: asked to install nothing, from [null] as from an
    empty list, the installer starts one child process, and when that
    child exits with 1 the call is rejected. *)
Lemma install_nothing_counterexample :
  spawned (trace_of (install Sample.host (Sample.failing_npm (Some 1%Z)) None false
                       Sample.start)) = 1
  /\ spawned (trace_of (install Sample.host Sample.fair_weather (Some []) true
                          Sample.start)) = 1
  /\ outcome_of (install Sample.host (Sample.failing_npm (Some 1%Z)) (Some []) false
                   Sample.start)
     = Throw (CommandFailed "npm ")
  /\ ~ (outcome_of (install Sample.host (Sample.failing_npm (Some 1%Z)) None false
                      Sample.start) = Ret tt
        /\ spawned (trace_of (install Sample.host (Sample.failing_npm (Some 1%Z)) None
                                false Sample.start)) = 0).
Proof.
  repeat split; try reflexivity.
  intros [Hret _]. vm_compute in Hret. discriminate.
Qed.

(** C5, as the code has it. The child's exit code decides: with 0 the call
    resolves with no value; with any other code (or none) it is rejected
    with a [command] that is ["npm "] followed by the arguments the child
    was started with, joined by single blanks.  For a non-empty package
    list these arguments are [install --save-exact], then [--save-dev] or
    [--save], then the packages; for [null] or an empty list there are
    none, and the command is ["npm "]. *)
Theorem install_reports_command (H : Host) (W : World)
    (deps : option (list string)) (dev : bool) (p : Proc) :
  let args := install_args deps dev in
  let code := child_exit W "npm" args in
  trace_of (install H W deps dev p)
  = [Spawn "npm" args "inherit" (child_env H); ChildClose code]
  /\ (code = Some 0%Z -> outcome_of (install H W deps dev p) = Ret tt)
  /\ (code <> Some 0%Z ->
        outcome_of (install H W deps dev p)
        = Throw (CommandFailed ("npm " +:+ join " " args)))
  /\ (forall d ds, deps = Some (d :: ds) ->
        args = ["install"; "--save-exact"; if dev then "--save-dev" else "--save"]
               ++ d :: ds
        /\ "npm " +:+ join " " args
           = "npm install --save-exact "
             +:+ (if dev then "--save-dev" else "--save")
             +:+ " " +:+ join " " (d :: ds))
  /\ (deps = None \/ deps = Some [] -> "npm " +:+ join " " args = "npm ").
Proof.
  intros args code. rewrite install_result. fold args. fold code.
  split; [reflexivity|].
  split; [intros ->; reflexivity|].
  split.
  { intros Hcode. unfold outcome_of. cbn [snd].
    destruct code as [[|c|c]|]; try reflexivity. now contradict Hcode. }
  split.
  { intros d ds ->. subst args. rewrite install_args_packages.
    split; [reflexivity|]. destruct dev; reflexivity. }
  intros Hnone. subst args. rewrite (install_args_nothing deps dev Hnone).
  reflexivity.
Qed.

Lemma install_reports_command_witness :
  child_exit (Sample.failing_npm (Some 2%Z)) "npm"
    (install_args (Some ["react"; "react-dom"]) false) <> Some 0%Z
  /\ outcome_of (install Sample.host (Sample.failing_npm (Some 2%Z))
                   (Some ["react"; "react-dom"]) false Sample.start)
     = Throw (CommandFailed "npm install --save-exact --save react react-dom").
Proof.
  assert (Hcode : child_exit (Sample.failing_npm (Some 2%Z)) "npm"
                    (install_args (Some ["react"; "react-dom"]) false) <> Some 0%Z)
    by (cbn; discriminate).
  split; [exact Hcode|].
  destruct (install_reports_command Sample.host (Sample.failing_npm (Some 2%Z))
              (Some ["react"; "react-dom"]) false Sample.start)
    as (_ & _ & Hreject & _).
  rewrite (Hreject Hcode). reflexivity.
Defined.

(** C5 as stated fails for a call without packages: the child exits with
    2 and the command of the rejection is ["npm "], with no [install],
    no [--save-exact] and no [--save] in it. *)
Lemma install_command_counterexample :
  outcome_of (install Sample.host (Sample.failing_npm (Some 2%Z)) (Some []) false
                Sample.start)
  = Throw (CommandFailed "npm ")
  /\ outcome_of (install Sample.host (Sample.failing_npm (Some 2%Z)) (Some []) false
                   Sample.start)
     <> Throw (CommandFailed "npm install --save-exact --save")
  /\ outcome_of (install Sample.host (Sample.failing_npm (Some 2%Z)) (Some []) false
                   Sample.start)
     <> Throw (CommandFailed "npm install --save-exact --save ").
Proof.
  repeat split; try reflexivity; vm_compute; discriminate.
Qed.

(** ** Running the orchestrator

    [unfold_run] opens the orchestrator and the primitives down to the
    calls into the world; [case_on] then decides one such call. *)

Ltac unfold_run :=
  cbv beta iota zeta delta
    [createApp createApp_until_manifest createApp_after_manifest
     install spawn cpy isWriteable fs_promises_access fs_promises_mkdir
     fs_readdirSync process_chdir fs_writeFileSync console_log console_error
     emit throw ret bind process_exit process_cwd try_catch forEach app
     trace_of proc_of outcome_of fst snd ToBoolean js_length negb
     dependencies devDependencies length Z.of_nat Z.eqb Pos.of_succ_nat Pos.succ
     has_dependencies install_args andb default from_option id
     plan script steps_done manifest_path manifest_data child_env
     runtime_args development_args].

Ltac case_on t := destruct t eqn:?; unfold_run.

(** Decides every test of [steps_done] in the goal. *)
Ltac steps_cases H W root :=
  destruct (succeeded (fs_access W (path_dirname H root)));
  destruct (succeeded (fs_mkdir W root));
  destruct (listed (fs_readdir W root));
  destruct (succeeded (os_chdir W root));
  destruct (succeeded (fs_writeFile W (manifest_path H root)));
  destruct (exited_zero (child_exit W "npm" runtime_args));
  destruct (exited_zero (child_exit W "npm" development_args));
  cbn [negb].

(** Opens the command line entry point down to the call of [createApp]. *)
Ltac unfold_cli :=
  cbv beta iota zeta delta
    [main run bind ret emit console_log console_error process_cwd try_catch negb
     validateNpmName valid problems process_exit throw
     trace_of proc_of outcome_of fst snd].

(** Opens [createApp H W appPath p] in the goal, names its root, and
    walks through the answers of the world in program order; [fin] closes
    each end of the walk. *)
Ltac createApp_cases H W appPath p root fin :=
  unfold_run;
  change (path_resolve H (cwd p) appPath) with root;
  case_on (fs_access W (path_dirname H root)); [fin|];
  case_on (fs_mkdir W root); [fin|];
  case_on (fs_readdir W root); [fin|];
  case_on (os_chdir W root); [fin|];
  case_on (fs_writeFile W (path_join H [root; "package.json"])); [fin|];
  destruct (child_exit W "npm"
              ["install"; "--save-exact"; "--save"; "react"; "react-dom"])
    as [[|?|?]|] eqn:?; unfold_run; [|fin|fin|fin];
  destruct (child_exit W "npm"
              ["install"; "--save-exact"; "--save-dev";
               "@babel/preset-env"; "@babel/preset-react"; "parcel"])
    as [[|?|?]|] eqn:?; unfold_run; [|fin|fin|fin];
  case_on (cpy_copy W (cpy_cwd (cpy_options H)) root); fin.

Lemma effects_app (t1 t2 : list event) :
  effects (t1 ++ t2) = effects t1 ++ effects t2.
Proof. apply List.filter_app. Qed.

Lemma forEach_emits {A} (g : A -> event) (f : A -> M unit) (xs : list A)
    (p : Proc) :
  (forall x q, f x q = ([g x], q, Ret tt)) ->
  forEach xs f p = (map g xs, p, Ret tt).
Proof.
  intros Hf. induction xs as [|x xs IH]; [reflexivity|].
  cbn [forEach map]. unfold bind. rewrite Hf, IH. reflexivity.
Qed.

Lemma console_errors_are_silent (f : string -> list string) (xs : list string) :
  effects (map (fun x => ConsoleError (f x)) xs) = []
  /\ existsb mutates (map (fun x => ConsoleError (f x)) xs) = false.
Proof.
  induction xs as [|x xs [IH1 IH2]]; [split; reflexivity|].
  split; cbn; assumption.
Qed.

Lemma nonempty_is_truthy (s : string) :
  s <> EmptyString -> ToBoolean (JsStr s) = true.
Proof.
  intros Hs. unfold ToBoolean.
  destruct (String.eqb_spec s EmptyString); [contradiction|reflexivity].
Qed.

(** The trace of the orchestrator without its console output is the
    script, cut after the first call that fails. *)
Lemma createApp_effects (H : Host) (W : World) (appPath : string) (p : Proc) :
  effects (trace_of (createApp H W appPath p))
  = firstn (steps_done H W (path_resolve H (cwd p) appPath))
      (script H W (path_resolve H (cwd p) appPath)).
Proof.
  set (root := path_resolve H (cwd p) appPath).
  createApp_cases H W appPath p root ltac:(reflexivity).
Qed.




(** ** Console output carries no effect *)

Lemma stages_effects (t : list event) : stages (effects t) = stages t.
Proof.
  unfold stages, effects.
  induction t as [|e t IH]; [reflexivity|].
  destruct e; cbn; rewrite ?IH; reflexivity.
Qed.

Lemma mutates_effects (t : list event) :
  existsb mutates (effects t) = existsb mutates t.
Proof.
  unfold effects.
  induction t as [|e t IH]; [reflexivity|].
  destruct e; cbn; rewrite ?IH; reflexivity.
Qed.

Lemma writes_effects (t : list event) : writes (effects t) = writes t.
Proof.
  unfold writes, effects.
  induction t as [|e t IH]; [reflexivity|].
  destruct e; cbn; rewrite ?IH; reflexivity.
Qed.

Lemma name_errors_silent (H : Host) (projectPath : string) (p : Proc) :
  effects (name_errors H projectPath p) = [].
Proof.
  unfold name_errors. rewrite effects_app.
  rewrite (proj1 (console_errors_are_silent _ _)). reflexivity.
Qed.

(** ** The command line run *)

Lemma main_refuses_name (H : Host) (W : World) (projectPath : string) (p : Proc) :
  str_trim H projectPath <> EmptyString ->
  validForNewPackages
    (validateProjectName H
       (path_basename H (path_resolve H (cwd p) (str_trim H projectPath)))) = false ->
  main H W projectPath p = (name_errors H projectPath p, p, Exit 1%Z).
Proof.
  intros Hpath Hbad.
  unfold name_errors, all_problems.
  unfold_cli.
  rewrite (nonempty_is_truthy _ Hpath), Hbad. cbv beta iota.
  rewrite (forEach_emits
             (fun problem =>
                ConsoleError ["    " +:+ chalk_red_bold H "*" +:+ " " +:+ problem]))
    by reflexivity.
  cbv beta iota. rewrite app_nil_r, !or_empty_messages. reflexivity.
Qed.

(** What [main] adds to [createApp] is console output, and the exit
    status 1 for a rejection. *)
Lemma main_summary (H : Host) (W : World) (projectPath : string) (p : Proc) :
  let resolved := path_resolve H (cwd p) (str_trim H projectPath) in
  effects (trace_of (main H W projectPath p))
  = (if reaches_createApp H projectPath p
     then effects (trace_of (createApp H W resolved p)) else [])
  /\ proc_of (main H W projectPath p)
     = (if reaches_createApp H projectPath p
        then proc_of (createApp H W resolved p) else p)
  /\ exit_status (outcome_of (main H W projectPath p))
     = (if reaches_createApp H projectPath p
        then exit_status (outcome_of (createApp H W resolved p)) else 1%Z).
Proof.
  intros resolved. unfold reaches_createApp.
  destruct (ToBoolean (JsStr (str_trim H projectPath))) eqn:Hpath.
  - fold resolved.
    destruct (validForNewPackages (validateProjectName H (path_basename H resolved)))
      eqn:Hvalid; cbn [andb].
    + subst resolved. unfold_cli. rewrite Hpath, Hvalid. cbv beta iota.
      destruct (createApp H W _ p) as [[t q] [[]|r|code]]; cbv beta iota.
      * rewrite !effects_app. cbn. rewrite ?app_nil_r. auto.
      * destruct r; cbn [reason_command ToBoolean];
          try destruct (negb _);
          rewrite !effects_app; cbn; rewrite ?app_nil_r; auto.
      * rewrite !effects_app. cbn. auto.
    + assert (Hne : str_trim H projectPath <> EmptyString).
      { intros Heq. rewrite Heq in Hpath. discriminate. }
      subst resolved. rewrite (main_refuses_name H W projectPath p Hne Hvalid).
      unfold trace_of, proc_of, outcome_of. cbn [fst snd exit_status].
      rewrite name_errors_silent. auto.
  - cbn [andb]. unfold_cli. rewrite Hpath. cbv beta iota. cbn. auto.
Qed.

(** C8. A project name the naming rules refuse: the run prints the
    header and then one line for every error message of the library and
    one for every warning message, errors first, in the library's order
    and none left out, and exits with status 1; nothing was created,
    written, started or copied, and the working directory is where it
    was. *)
Theorem invalid_name_stops_the_run (H : Host) (W : World) (projectPath : string)
    (p : Proc) :
  let path := str_trim H projectPath in
  let projectName := path_basename H (path_resolve H (cwd p) path) in
  path <> EmptyString ->
  validForNewPackages (validateProjectName H projectName) = false ->
  main H W projectPath p = (name_errors H projectPath p, p, Exit 1%Z)
  /\ (exists header,
        trace_of (main H W projectPath p)
        = header
          ++ map (fun problem =>
                    ConsoleError ["    " +:+ chalk_red_bold H "*" +:+ " " +:+ problem])
               (messages (errors (validateProjectName H projectName))
                ++ messages (warnings (validateProjectName H projectName)))
        /\ length header = 4)
  /\ (forall problem,
        In problem (messages (errors (validateProjectName H projectName))
                    ++ messages (warnings (validateProjectName H projectName))) ->
        In (ConsoleError ["    " +:+ chalk_red_bold H "*" +:+ " " +:+ problem])
           (trace_of (main H W projectPath p)))
  /\ problems (validateNpmName H projectName) = Some (all_problems H projectName)
  /\ exit_status (outcome_of (main H W projectPath p)) = 1%Z
  /\ effects (trace_of (main H W projectPath p)) = []
  /\ existsb mutates (trace_of (main H W projectPath p)) = false
  /\ proc_of (main H W projectPath p) = p.
Proof.
  intros path projectName Hpath Hbad. subst projectName path.
  rewrite (main_refuses_name H W projectPath p Hpath Hbad).
  unfold trace_of, proc_of, outcome_of. cbn [fst snd exit_status].
  split; [reflexivity|].
  split; [eexists; split; reflexivity|].
  split.
  { intros problem Hin. unfold name_errors, all_problems.
    apply in_or_app. right.
    apply (in_map (fun problem =>
                     ConsoleError ["    " +:+ chalk_red_bold H "*" +:+ " " +:+ problem])).
    exact Hin. }
  repeat split.
  - unfold validateNpmName. rewrite Hbad. reflexivity.
  - apply name_errors_silent.
  - rewrite <- mutates_effects, name_errors_silent. reflexivity.
Qed.

Lemma invalid_name_stops_the_run_witness :
  str_trim Sample.host "NODE_MODULES" <> EmptyString
  /\ validForNewPackages
       (validateProjectName Sample.host
          (path_basename Sample.host
             (path_resolve Sample.host (cwd Sample.start)
                (str_trim Sample.host "NODE_MODULES")))) = false
  /\ main Sample.host Sample.fair_weather "NODE_MODULES" Sample.start
     = ([ ConsoleLog ["Path : "; "NODE_MODULES"];
          ConsoleLog ["Resolved Path : "; "/home/dev/NODE_MODULES"];
          ConsoleLog ["Project Name: "; "NODE_MODULES"];
          ConsoleError
            ["Could not create a project called " +:+ dquote +:+ "NODE_MODULES"
             +:+ dquote +:+ " because of npm naming restrictions:"];
          ConsoleError ["    * node_modules is a blacklisted name"];
          ConsoleError ["    * name can no longer contain capital letters"] ],
        Sample.start, Exit 1%Z).
Proof.
  assert (Hpath : str_trim Sample.host "NODE_MODULES" <> EmptyString)
    by (vm_compute; discriminate).
  split; [exact Hpath|]. split; [reflexivity|].
  rewrite (proj1 (invalid_name_stops_the_run Sample.host Sample.fair_weather
                    "NODE_MODULES" Sample.start Hpath eq_refl)).
  reflexivity.
Defined.

Lemma createApp_unwritable (H : Host) (W : World) (appPath : string) (p : Proc) :
  fs_access W (path_dirname H (path_resolve H (cwd p) appPath)) <> None ->
  createApp H W appPath p
  = (unwritable_report (path_resolve H (cwd p) appPath)
       (path_dirname H (path_resolve H (cwd p) appPath)),
     p, Exit 1%Z).
Proof.
  intros Hno. unfold unwritable_report. unfold_run.
  destruct (fs_access W (path_dirname H (path_resolve H (cwd p) appPath)));
    [reflexivity|].
  now contradict Hno.
Qed.

(** C7. The writability check never throws: it answers [true] when the
    access check succeeds and [false] for every failure, whatever the
    error.  The orchestrator asks it about the parent of the target before
    anything else; on [false] it prints two lines and exits with status 1,
    having created, written, started and copied nothing, and so does the
    whole command line run. *)
Theorem unwritable_parent_stops_the_run (H : Host) (W : World)
    (directory appPath : string) (p : Proc) :
  let root := path_resolve H (cwd p) appPath in
  let parent := path_dirname H root in
  isWriteable W directory p
  = ([FsAccess directory], p, Ret (succeeded (fs_access W directory)))
  /\ (forall e, fs_access W directory = Some e ->
        outcome_of (isWriteable W directory p) = Ret false)
  /\ (fs_access W directory = None ->
        outcome_of (isWriteable W directory p) = Ret true)
  /\ (exists rest,
        effects (trace_of (createApp H W appPath p)) = FsAccess parent :: rest)
  /\ (fs_access W parent <> None ->
        createApp H W appPath p = (unwritable_report root parent, p, Exit 1%Z)
        /\ existsb mutates (trace_of (createApp H W appPath p)) = false
        /\ exit_status (outcome_of (createApp H W appPath p)) = 1%Z)
  /\ (forall projectPath,
        reaches_createApp H projectPath p = true ->
        fs_access W
          (path_dirname H
             (path_resolve H (cwd p)
                (path_resolve H (cwd p) (str_trim H projectPath)))) <> None ->
        exit_status (outcome_of (main H W projectPath p)) = 1%Z
        /\ existsb mutates (trace_of (main H W projectPath p)) = false
        /\ proc_of (main H W projectPath p) = p).
Proof.
  intros root parent.
  split; [apply isWriteable_result|].
  split; [intros e He; rewrite isWriteable_result, He; reflexivity|].
  split; [intros He; rewrite isWriteable_result, He; reflexivity|].
  split.
  { rewrite createApp_effects. fold root. unfold steps_done. subst parent.
    steps_cases H W root; eexists; reflexivity. }
  split.
  { intros Hno. subst parent root.
    rewrite (createApp_unwritable H W appPath p Hno). repeat split. }
  intros projectPath Hreach Hno.
  destruct (main_summary H W projectPath p) as (Heff & Hproc & Hstatus).
  rewrite Hreach in Heff, Hproc, Hstatus.
  rewrite <- mutates_effects, Heff, Hproc, Hstatus.
  rewrite (createApp_unwritable H W _ p Hno). repeat split.
Qed.

Lemma unwritable_parent_stops_the_run_witness :
  fs_access Sample.read_only
    (path_dirname Sample.host (path_resolve Sample.host (cwd Sample.start) "my-app"))
  <> None
  /\ exit_status (outcome_of (createApp Sample.host Sample.read_only "my-app"
                                Sample.start)) = 1%Z.
Proof.
  assert (Hno : fs_access Sample.read_only
                  (path_dirname Sample.host
                     (path_resolve Sample.host (cwd Sample.start) "my-app")) <> None)
    by (cbn; discriminate).
  split; [exact Hno|].
  destruct (unwritable_parent_stops_the_run Sample.host Sample.read_only "/tmp" "my-app"
              Sample.start) as (_ & _ & _ & _ & Hstop & _).
  exact (proj2 (proj2 (Hstop Hno))).
Defined.

(** ** The stages of a run *)

Lemma fail_fast_is_a_prefix (plan : list (stage * bool)) :
  fail_fast plan = firstn (progress plan) (map fst plan).
Proof.
  induction plan as [|[s ok] rest IH]; [reflexivity|].
  cbn [fail_fast progress map fst firstn]. destruct ok; [now rewrite IH|reflexivity].
Qed.

Lemma createApp_stages (H : Host) (W : World) (appPath : string) (p : Proc) :
  stages (trace_of (createApp H W appPath p))
  = fail_fast (plan H W (path_resolve H (cwd p) appPath)).
Proof.
  set (root := path_resolve H (cwd p) appPath).
  createApp_cases H W appPath p root ltac:(reflexivity).
Qed.

(** The development install is reached only through a runtime install
    whose child has closed with exit code 0. *)
Lemma development_install_follows_runtime (H : Host) (W : World) (appPath : string)
    (p : Proc) :
  In (Spawn "npm" development_args "inherit" (child_env H))
     (trace_of (createApp H W appPath p)) ->
  child_exit W "npm" runtime_args = Some 0%Z
  /\ exists after,
       effects (trace_of (createApp H W appPath p))
       = firstn 8 (script H W (path_resolve H (cwd p) appPath)) ++ after.
Proof.
  set (root := path_resolve H (cwd p) appPath). intros Hin.
  assert (Hin' : In (Spawn "npm" development_args "inherit" (child_env H))
                    (effects (trace_of (createApp H W appPath p)))).
  { apply List.filter_In. split; [exact Hin|reflexivity]. }
  rewrite createApp_effects in Hin' |- *. fold root in Hin' |- *.
  unfold steps_done in *.
  destruct (child_exit W "npm" runtime_args) as [[|c|c]|] eqn:Hexit;
    destruct (succeeded (fs_access W (path_dirname H root)));
    destruct (succeeded (fs_mkdir W root));
    destruct (listed (fs_readdir W root));
    destruct (succeeded (os_chdir W root));
    destruct (succeeded (fs_writeFile W (manifest_path H root)));
    destruct (exited_zero (child_exit W "npm" development_args));
    cbn [negb exited_zero] in Hin' |- *;
    first [ split; [reflexivity|]; eexists; reflexivity
          | exfalso; unfold script, runtime_args, development_args in Hin';
            cbn [firstn In] in Hin'; intuition discriminate ].
Qed.

(** C2. The stages of a scaffold run come in the order writability
    check, directory creation, manifest, runtime install, development
    install, template copy, and the run stops with the first stage that
    fails.  The development install is started only after the child of the
    runtime install has closed, with exit code 0.  The run resolves
    exactly when every stage succeeded. *)
Theorem stages_run_in_order (H : Host) (W : World) (appPath projectPath : string)
    (p : Proc) :
  let root := path_resolve H (cwd p) appPath in
  stages (trace_of (createApp H W appPath p)) = fail_fast (plan H W root)
  /\ map fst (plan H W root) = all_stages
  /\ effects (trace_of (createApp H W appPath p))
     = firstn (steps_done H W root) (script H W root)
  /\ (outcome_of (createApp H W appPath p) = Ret tt
      <-> forallb snd (plan H W root) = true)
  /\ (In (Spawn "npm" development_args "inherit" (child_env H))
         (trace_of (createApp H W appPath p)) ->
      child_exit W "npm" runtime_args = Some 0%Z
      /\ exists after,
           effects (trace_of (createApp H W appPath p))
           = firstn 8 (script H W root) ++ after)
  /\ (exists k, stages (trace_of (createApp H W appPath p)) = firstn k all_stages)
  /\ (exists k, stages (trace_of (main H W projectPath p)) = firstn k all_stages).
Proof.
  intros root.
  split; [apply createApp_stages|].
  split; [reflexivity|].
  split; [apply createApp_effects|].
  split.
  { createApp_cases H W appPath p root
      ltac:(split; intros Hx; cbn in Hx; first [discriminate Hx | reflexivity]). }
  split; [apply development_install_follows_runtime|].
  split.
  { exists (progress (plan H W root)).
    rewrite createApp_stages. fold root. apply fail_fast_is_a_prefix. }
  rewrite <- stages_effects.
  destruct (main_summary H W projectPath p) as (-> & _).
  destruct (reaches_createApp H projectPath p).
  - rewrite stages_effects, createApp_stages.
    eexists. apply fail_fast_is_a_prefix.
  - exists 0. reflexivity.
Qed.

Lemma stages_run_in_order_witness :
  In (Spawn "npm" development_args "inherit" (child_env Sample.host))
     (trace_of (createApp Sample.host Sample.fair_weather "my-app" Sample.start))
  /\ child_exit Sample.fair_weather "npm" runtime_args = Some 0%Z
  /\ stages (trace_of (createApp Sample.host Sample.fair_weather "my-app"
                          Sample.start)) = all_stages.
Proof.
  assert (Hin : In (Spawn "npm" development_args "inherit" (child_env Sample.host))
                   (trace_of (createApp Sample.host Sample.fair_weather "my-app"
                                Sample.start))).
  { apply (proj1 (List.filter_In is_spawn _ _)).
    right; left; reflexivity. }
  destruct (stages_run_in_order Sample.host Sample.fair_weather "my-app" "my-app"
              Sample.start) as (Hstages & _ & _ & _ & Hseq & _).
  split; [exact Hin|].
  split; [exact (proj1 (Hseq Hin))|].
  rewrite Hstages. reflexivity.
Defined.

(** ** The manifest *)

Lemma string_app_assoc (a b c : string) : (a +:+ b) +:+ c = a +:+ (b +:+ c).
Proof.
  induction a as [|x a IH]; [reflexivity|].
  change (String x ((a +:+ b) +:+ c) = String x (a +:+ (b +:+ c))).
  f_equal. exact IH.
Qed.

Lemma manifest_is_indented_json (name : string) :
  Json.stringify (packageJson name) 2 = manifest_text name.
Proof.
  unfold manifest_text, Json.stringify, packageJson.
  cbn. unfold Json.quote.
  rewrite !string_app_assoc.
  reflexivity.
Qed.

(** [createApp] is its first half followed by its second half. *)
Lemma createApp_in_two_halves (H : Host) (W : World) (appPath : string) (p : Proc) :
  createApp H W appPath p
  = bind (createApp_until_manifest H W appPath)
      (createApp_after_manifest H W appPath) p.
Proof.
  set (root := path_resolve H (cwd p) appPath).
  createApp_cases H W appPath p root ltac:(reflexivity).
Qed.

(** The first half, when every call up to the manifest write succeeds. *)
Lemma createApp_until_manifest_result (H : Host) (W : World) (appPath : string)
    (p : Proc) (entries : list string) :
  fs_access W (path_dirname H (path_resolve H (cwd p) appPath)) = None ->
  fs_mkdir W (path_resolve H (cwd p) appPath) = None ->
  fs_readdir W (path_resolve H (cwd p) appPath) = inr entries ->
  os_chdir W (path_resolve H (cwd p) appPath) = None ->
  fs_writeFile W (manifest_path H (path_resolve H (cwd p) appPath)) = None ->
  createApp_until_manifest H W appPath p
  = ([ ConsoleLog [" Root:  "; path_resolve H (cwd p) appPath];
       FsAccess (path_dirname H (path_resolve H (cwd p) appPath));
       FsMkdir (path_resolve H (cwd p) appPath) true;
       FsReaddir (path_resolve H (cwd p) appPath);
       ConsoleLog ["Creating a new React app in "
                   +:+ chalk_green H (path_resolve H (cwd p) appPath) +:+ "."];
       ConsoleLog [];
       Chdir (path_resolve H (cwd p) appPath);
       FsWriteFile (manifest_path H (path_resolve H (cwd p) appPath))
         (manifest_data H (path_resolve H (cwd p) appPath)) ],
     {| files := <[manifest_path H (path_resolve H (cwd p) appPath)
                   := manifest_data H (path_resolve H (cwd p) appPath)]> (files p);
        cwd := path_resolve H (cwd p) appPath |},
     Ret (path_resolve H (cwd p) appPath,
          path_basename H (path_resolve H (cwd p) appPath),
          cwd p)).
Proof.
  intros Haccess Hmkdir Hreaddir Hchdir Hwrite.
  unfold manifest_path in Hwrite. unfold_run.
  rewrite Haccess. cbv beta iota.
  rewrite Hmkdir. cbv beta iota.
  rewrite Hreaddir. cbv beta iota.
  rewrite Hchdir. cbv beta iota.
  rewrite Hwrite. reflexivity.
Qed.

(** C4. The manifest is the two-blank indented JSON text of
    [{name, version: "1.0.0", private: true, scripts: {start, build}}]
    followed by the line ending of the platform.  A run that gets as far
    as the manifest stage (parent writable, directory created, listed and
    entered) writes it exactly once, to [package.json] under the root; no
    run writes it twice, and a run stopped before that stage writes
    nothing.  The write replaces what the file held: right after it, at
    the end of the first half of [createApp], the file holds exactly that
    text whatever it held before. *)
Theorem manifest_written_when_reached (H : Host) (W : World) (appPath : string)
    (p : Proc) :
  let root := path_resolve H (cwd p) appPath in
  manifest_data H root = manifest_text (path_basename H root) +:+ os_EOL H
  /\ manifest_path H root = path_join H [root; "package.json"]
  /\ length (writes (trace_of (createApp H W appPath p))) <= 1
  /\ (steps_done H W root < 5 -> writes (trace_of (createApp H W appPath p)) = [])
  /\ createApp H W appPath p
     = bind (createApp_until_manifest H W appPath)
         (createApp_after_manifest H W appPath) p
  /\ (fs_access W (path_dirname H root) = None ->
      fs_mkdir W root = None ->
      listed (fs_readdir W root) = true ->
      os_chdir W root = None ->
      writes (trace_of (createApp H W appPath p))
      = [FsWriteFile (manifest_path H root) (manifest_data H root)]
      /\ (fs_writeFile W (manifest_path H root) = None ->
          forall previous,
            let before :=
              {| files := <[manifest_path H root := previous]> (files p);
                 cwd := cwd p |} in
            files (proc_of (createApp_until_manifest H W appPath before))
              !! manifest_path H root
            = Some (manifest_data H root)
            /\ writes (trace_of (createApp_until_manifest H W appPath before))
               = [FsWriteFile (manifest_path H root) (manifest_data H root)])).
Proof.
  intros root.
  assert (Hwrites : writes (trace_of (createApp H W appPath p))
                    = writes (firstn (steps_done H W root) (script H W root))).
  { rewrite <- writes_effects, createApp_effects. reflexivity. }
  split.
  { unfold manifest_data. now rewrite manifest_is_indented_json. }
  split; [reflexivity|].
  split.
  { rewrite Hwrites. unfold steps_done. steps_cases H W root; cbn; lia. }
  split.
  { rewrite Hwrites. unfold steps_done.
    steps_cases H W root; cbn; intros Hlt; first [reflexivity | lia]. }
  split; [apply createApp_in_two_halves|].
  intros Haccess Hmkdir Hlisted Hchdir.
  split.
  { rewrite Hwrites. unfold steps_done.
    rewrite Haccess, Hmkdir, Hlisted, Hchdir. cbn [succeeded negb].
    destruct (succeeded (fs_writeFile W (manifest_path H root)));
      destruct (exited_zero (child_exit W "npm" runtime_args));
      destruct (exited_zero (child_exit W "npm" development_args)); reflexivity. }
  intros Hwrite previous before.
  destruct (fs_readdir W root) as [|entries] eqn:Hreaddir; [discriminate Hlisted|].
  rewrite (createApp_until_manifest_result H W appPath before entries
             Haccess Hmkdir Hreaddir Hchdir Hwrite).
  split; [apply lookup_insert_eq|reflexivity].
Qed.

Lemma manifest_written_when_reached_witness :
  fs_access Sample.fair_weather
    (path_dirname Sample.host (path_resolve Sample.host (cwd Sample.start) "my-app"))
  = None
  /\ fs_mkdir Sample.fair_weather
       (path_resolve Sample.host (cwd Sample.start) "my-app") = None
  /\ listed (fs_readdir Sample.fair_weather
               (path_resolve Sample.host (cwd Sample.start) "my-app")) = true
  /\ os_chdir Sample.fair_weather
       (path_resolve Sample.host (cwd Sample.start) "my-app") = None
  /\ writes (trace_of (createApp Sample.host Sample.fair_weather "my-app" Sample.start))
     = [FsWriteFile "/home/dev/my-app/package.json"
          (manifest_text "my-app" +:+ LF)].
Proof.
  repeat (split; [reflexivity|]).
  destruct (manifest_written_when_reached Sample.host Sample.fair_weather "my-app"
              Sample.start) as (_ & _ & _ & _ & _ & Hreached).
  destruct (Hreached eq_refl eq_refl eq_refl eq_refl) as [Hwrites _].
  rewrite Hwrites. vm_compute. reflexivity.
Defined.

(** A run stopped at the writability check writes no manifest. *)
Example stopped_run_writes_no_manifest :
  writes (trace_of (main Sample.host Sample.read_only "my-app" Sample.start)) = []
  /\ exit_status (outcome_of (main Sample.host Sample.read_only "my-app" Sample.start))
     = 1%Z.
Proof. split; vm_compute; reflexivity. Qed.

(** * More of the program *)

(** ** The ends of the command line run *)

(** X1. Without a project directory (the argument is empty once it is
    trimmed) the run prints the usage text and exits with status 1; it
    does not look at the file system and the name is never validated. *)
Theorem empty_argument_prints_usage (H : Host) (W : World) (projectPath : string)
    (p : Proc) :
  str_trim H projectPath = EmptyString ->
  main H W projectPath p = (usage_report H, p, Exit 1%Z)
  /\ effects (trace_of (main H W projectPath p)) = [].
Proof.
  intros Hempty.
  assert (Hmain : main H W projectPath p = (usage_report H, p, Exit 1%Z)).
  { unfold usage_report. unfold_cli. rewrite Hempty. reflexivity. }
  rewrite Hmain. split; reflexivity.
Qed.

Lemma empty_argument_prints_usage_witness :
  str_trim Sample.host "   " = EmptyString
  /\ outcome_of (main Sample.host Sample.fair_weather "   " Sample.start) = Exit 1%Z.
Proof.
  split; [reflexivity|].
  rewrite (proj1 (empty_argument_prints_usage Sample.host Sample.fair_weather "   "
                    Sample.start eq_refl)).
  reflexivity.
Defined.

(** How [main] ends, from how [createApp] ends. *)
Lemma main_outcome (H : Host) (W : World) (projectPath : string) (p : Proc) :
  outcome_of (main H W projectPath p)
  = if reaches_createApp H projectPath p
    then match outcome_of (createApp H W
                             (path_resolve H (cwd p) (str_trim H projectPath)) p) with
         | Ret _ => Ret tt
         | Throw _ => Exit 1%Z
         | Exit code => Exit code
         end
    else Exit 1%Z.
Proof.
  unfold reaches_createApp.
  destruct (ToBoolean (JsStr (str_trim H projectPath))) eqn:Hpath.
  - destruct (validForNewPackages
                (validateProjectName H
                   (path_basename H (path_resolve H (cwd p) (str_trim H projectPath)))))
      eqn:Hvalid; cbn [andb].
    + unfold_cli. rewrite Hpath, Hvalid. cbv beta iota.
      destruct (createApp H W _ p) as [[t q] [[]|r|code]]; cbv beta iota;
        [reflexivity| |reflexivity].
      destruct r; cbn [reason_command ToBoolean]; try destruct (negb _); reflexivity.
    + assert (Hne : str_trim H projectPath <> EmptyString).
      { intros Heq. rewrite Heq in Hpath. discriminate. }
      rewrite (main_refuses_name H W projectPath p Hne Hvalid). reflexivity.
  - cbn [andb]. unfold_cli. rewrite Hpath. reflexivity.
Qed.

Lemma createApp_status (H : Host) (W : World) (appPath : string) (p : Proc) :
  exit_status (outcome_of (createApp H W appPath p))
  = if forallb snd (plan H W (path_resolve H (cwd p) appPath)) then 0%Z else 1%Z.
Proof.
  set (root := path_resolve H (cwd p) appPath).
  createApp_cases H W appPath p root ltac:(reflexivity).
Qed.

Lemma createApp_exit_code (H : Host) (W : World) (appPath : string) (p : Proc)
    (code : Z) :
  outcome_of (createApp H W appPath p) = Exit code -> code = 1%Z.
Proof.
  set (root := path_resolve H (cwd p) appPath).
  createApp_cases H W appPath p root
    ltac:(intros Hx; first [discriminate Hx | now injection Hx]).
Qed.

(** X2. How a reached run ends follows from how the orchestrator
    ends: when [createApp] resolves the run returns, every rejection of
    [createApp], whatever its reason, is caught by the top-level handler
    and turned into exit status 1, and an exit inside [createApp] is an
    exit with status 1.  A run that never calls [createApp] exits with
    status 1. *)
Theorem endings_of_a_run (H : Host) (W : World) (projectPath : string)
    (p : Proc) :
  let resolved := path_resolve H (cwd p) (str_trim H projectPath) in
  (reaches_createApp H projectPath p = false ->
   outcome_of (main H W projectPath p) = Exit 1%Z)
  /\ (reaches_createApp H projectPath p = true ->
      (outcome_of (createApp H W resolved p) = Ret tt ->
       outcome_of (main H W projectPath p) = Ret tt)
      /\ (forall r, outcome_of (createApp H W resolved p) = Throw r ->
            outcome_of (main H W projectPath p) = Exit 1%Z)
      /\ (forall code, outcome_of (createApp H W resolved p) = Exit code ->
            code = 1%Z /\ outcome_of (main H W projectPath p) = Exit 1%Z)).
Proof.
  intros resolved. rewrite main_outcome. fold resolved.
  split; [intros ->; reflexivity|].
  intros ->.
  split; [intros ->; reflexivity|].
  split; [intros r ->; reflexivity|].
  intros code Hexit.
  pose proof (createApp_exit_code H W resolved p code Hexit) as ->.
  split; [reflexivity|]. now rewrite Hexit.
Qed.

Lemma endings_of_a_run_witness :
  reaches_createApp Sample.host "my-app" Sample.start = true
  /\ outcome_of (createApp Sample.host mkdir_fails
                   (path_resolve Sample.host (cwd Sample.start)
                      (str_trim Sample.host "my-app")) Sample.start)
     = Throw (FsFailure "mkdir" (EOTHER "ENOSPC") "/home/dev/my-app")
  /\ outcome_of (main Sample.host mkdir_fails "my-app" Sample.start) = Exit 1%Z.
Proof.
  assert (Hthrow : outcome_of (createApp Sample.host mkdir_fails
                                 (path_resolve Sample.host (cwd Sample.start)
                                    (str_trim Sample.host "my-app")) Sample.start)
                   = Throw (FsFailure "mkdir" (EOTHER "ENOSPC") "/home/dev/my-app"))
    by (vm_compute; reflexivity).
  split; [reflexivity|]. split; [exact Hthrow|].
  destruct (endings_of_a_run Sample.host mkdir_fails "my-app" Sample.start)
    as (_ & Hreached).
  destruct (Hreached eq_refl) as (_ & Hrejected & _).
  exact (Hrejected _ Hthrow).
Defined.

(** X3. The run ends with status 0 exactly when the argument is not
    empty, the name is accepted and every one of the six stages
    succeeded. *)
Theorem success_needs_every_stage (H : Host) (W : World) (projectPath : string)
    (p : Proc) :
  let resolved := path_resolve H (cwd p) (str_trim H projectPath) in
  let root := path_resolve H (cwd p) resolved in
  exit_status (outcome_of (main H W projectPath p)) = 0%Z
  <-> reaches_createApp H projectPath p = true
      /\ forallb snd (plan H W root) = true.
Proof.
  intros resolved root.
  destruct (main_summary H W projectPath p) as (_ & _ & ->).
  fold resolved. rewrite createApp_status. fold root.
  destruct (reaches_createApp H projectPath p);
    destruct (forallb snd (plan H W root)); split;
    first [intros [? ?]; discriminate | discriminate | auto].
Qed.

Lemma createApp_install_rejection (H : Host) (W : World) (appPath : string)
    (p : Proc) :
  (steps_done H W (path_resolve H (cwd p) appPath) = 7 ->
   outcome_of (createApp H W appPath p)
   = Throw (CommandFailed "npm install --save-exact --save react react-dom"))
  /\ (steps_done H W (path_resolve H (cwd p) appPath) = 9 ->
      outcome_of (createApp H W appPath p)
      = Throw (CommandFailed
                 "npm install --save-exact --save-dev @babel/preset-env @babel/preset-react parcel")).
Proof.
  set (root := path_resolve H (cwd p) appPath).
  createApp_cases H W appPath p root
    ltac:(split; intros Hs; first [discriminate Hs | reflexivity]).
Qed.

(** X4. When the orchestrator is rejected with a failed command, the
    run ends its output with the report naming that command and exits
    with status 1.  A run stopped by the runtime install names
    [npm install --save-exact --save react react-dom]; a run stopped by
    the development install names the development command line. *)
Theorem failed_command_is_reported (H : Host) (W : World) (projectPath : string)
    (p : Proc) (command : string) :
  let resolved := path_resolve H (cwd p) (str_trim H projectPath) in
  let root := path_resolve H (cwd p) resolved in
  reaches_createApp H projectPath p = true ->
  outcome_of (createApp H W resolved p) = Throw (CommandFailed command) ->
  command <> EmptyString ->
  outcome_of (main H W projectPath p) = Exit 1%Z
  /\ trace_of (main H W projectPath p)
     = run_banner H projectPath p
       ++ trace_of (createApp H W resolved p)
       ++ command_failure_report H command
  /\ (steps_done H W root = 7 ->
      command = "npm install --save-exact --save react react-dom")
  /\ (steps_done H W root = 9 ->
      command
      = "npm install --save-exact --save-dev @babel/preset-env @babel/preset-react parcel").
Proof.
  intros resolved root Hreach Hthrow Hcommand.
  split; [rewrite main_outcome, Hreach; fold resolved; now rewrite Hthrow|].
  split.
  { unfold reaches_createApp in Hreach. apply andb_prop in Hreach as [Hpath Hvalid].
    subst root resolved. unfold run_banner, command_failure_report.
    unfold_cli. rewrite Hpath, Hvalid. cbv beta iota.
    unfold outcome_of in Hthrow.
    destruct (createApp H W _ p) as [[t q] o]. cbn [snd] in Hthrow. subst o.
    cbv beta iota. cbn [reason_command text_of].
    rewrite (nonempty_is_truthy command Hcommand).
    cbn [app]. rewrite app_nil_r. reflexivity. }
  destruct (createApp_install_rejection H W resolved p) as [Hruntime Hdev].
  fold root in Hruntime, Hdev.
  split; intros Hsteps.
  - rewrite (Hruntime Hsteps) in Hthrow. now injection Hthrow.
  - rewrite (Hdev Hsteps) in Hthrow. now injection Hthrow.
Qed.

Lemma failed_command_is_reported_witness :
  reaches_createApp Sample.host "my-app" Sample.start = true
  /\ outcome_of (createApp Sample.host (Sample.failing_npm (Some 1%Z))
                   (path_resolve Sample.host (cwd Sample.start)
                      (str_trim Sample.host "my-app")) Sample.start)
     = Throw (CommandFailed "npm install --save-exact --save react react-dom")
  /\ "npm install --save-exact --save react react-dom" <> EmptyString
  /\ outcome_of (main Sample.host (Sample.failing_npm (Some 1%Z)) "my-app"
                   Sample.start) = Exit 1%Z.
Proof.
  assert (Hthrow : outcome_of (createApp Sample.host (Sample.failing_npm (Some 1%Z))
                                 (path_resolve Sample.host (cwd Sample.start)
                                    (str_trim Sample.host "my-app")) Sample.start)
                   = Throw (CommandFailed
                              "npm install --save-exact --save react react-dom"))
    by (vm_compute; reflexivity).
  assert (Hne : "npm install --save-exact --save react react-dom" <> EmptyString)
    by discriminate.
  split; [reflexivity|]. split; [exact Hthrow|]. split; [exact Hne|].
  exact (proj1 (failed_command_is_reported Sample.host (Sample.failing_npm (Some 1%Z))
                  "my-app" Sample.start _ eq_refl Hthrow Hne)).
Defined.

(** ** The installer's child *)

(** X5. Every process the installer starts is [npm] with inherited
    standard streams, and its environment is the inherited one with
    [ADBLOCK] and [DISABLE_OPENCOLLECTIVE] set to [1]: these two override
    whatever was inherited, every other variable is passed on as it is. *)
Theorem child_environment (H : Host) (W : World) (deps : option (list string))
    (dev : bool) (p : Proc) (command stdio : string) (args : list string)
    (env : gmap string string) :
  In (Spawn command args stdio env) (trace_of (install H W deps dev p)) ->
  command = "npm"
  /\ stdio = "inherit"
  /\ env !! "ADBLOCK" = Some "1"
  /\ env !! "DISABLE_OPENCOLLECTIVE" = Some "1"
  /\ (forall name, name <> "ADBLOCK" -> name <> "DISABLE_OPENCOLLECTIVE" ->
        env !! name = process_env H !! name).
Proof.
  rewrite install_result. unfold trace_of. cbn [fst In].
  intros [Heq | [Heq | []]]; [|discriminate Heq].
  injection Heq as <- <- <- <-. unfold child_env.
  split; [reflexivity|]. split; [reflexivity|].
  split; [rewrite lookup_insert_ne by discriminate; apply lookup_insert_eq|].
  split; [apply lookup_insert_eq|].
  intros name Hadblock Hcollective.
  rewrite !lookup_insert_ne by congruence. reflexivity.
Qed.

Lemma child_environment_witness :
  In (Spawn "npm" ["install"; "--save-exact"; "--save"; "react"] "inherit"
        (child_env Sample.host))
     (trace_of (install Sample.host Sample.fair_weather (Some ["react"]) false
                  Sample.start))
  /\ child_env Sample.host !! "HOME" = Some "/home/dev".
Proof.
  assert (Hin : In (Spawn "npm" ["install"; "--save-exact"; "--save"; "react"] "inherit"
                      (child_env Sample.host))
                   (trace_of (install Sample.host Sample.fair_weather (Some ["react"])
                                false Sample.start)))
    by (left; reflexivity).
  split; [exact Hin|].
  destruct (child_environment _ _ _ _ _ _ _ _ _ Hin) as (_ & _ & _ & _ & Hrest).
  rewrite (Hrest "HOME") by discriminate. reflexivity.
Defined.

(** ** What a run leaves behind *)

Lemma createApp_cwd (H : Host) (W : World) (appPath : string) (p : Proc) :
  cwd (proc_of (createApp H W appPath p))
  = if Nat.ltb 4 (steps_done H W (path_resolve H (cwd p) appPath))
    then path_resolve H (cwd p) appPath
    else cwd p.
Proof.
  set (root := path_resolve H (cwd p) appPath).
  createApp_cases H W appPath p root ltac:(reflexivity).
Qed.

(** X6. The working directory is switched to the target once and never
    switched back: a run that entered the target directory ends inside
    it, whether it then succeeds or fails at a later stage; a run that
    stopped before leaves the working directory where it was. *)
Theorem working_directory_is_not_restored (H : Host) (W : World)
    (appPath : string) (p : Proc) :
  let root := path_resolve H (cwd p) appPath in
  (fs_access W (path_dirname H root) = None ->
   fs_mkdir W root = None ->
   listed (fs_readdir W root) = true ->
   os_chdir W root = None ->
   cwd (proc_of (createApp H W appPath p)) = root)
  /\ (steps_done H W root <= 4 ->
      cwd (proc_of (createApp H W appPath p)) = cwd p)
  /\ length (List.filter (fun e => match e with Chdir _ => true | _ => false end)
               (trace_of (createApp H W appPath p))) <= 1.
Proof.
  intros root. rewrite createApp_cwd. fold root.
  split.
  { intros Haccess Hmkdir Hlisted Hchdir. unfold steps_done.
    rewrite Haccess, Hmkdir, Hlisted, Hchdir. cbn [succeeded negb].
    destruct (succeeded (fs_writeFile W (manifest_path H root)));
      destruct (exited_zero (child_exit W "npm" runtime_args));
      destruct (exited_zero (child_exit W "npm" development_args)); reflexivity. }
  split.
  { intros Hsteps. destruct (Nat.ltb_spec 4 (steps_done H W root)); [lia|reflexivity]. }
  assert (Hchdirs : forall t,
            List.filter (fun e => match e with Chdir _ => true | _ => false end)
              (effects t)
            = List.filter (fun e => match e with Chdir _ => true | _ => false end) t).
  { unfold effects. induction t as [|e t IH]; [reflexivity|].
    destruct e; cbn; rewrite ?IH; reflexivity. }
  rewrite <- Hchdirs, createApp_effects. fold root. unfold steps_done.
  steps_cases H W root; cbn; lia.
Qed.

Lemma working_directory_is_not_restored_witness :
  fs_access (Sample.failing_npm (Some 1%Z))
    (path_dirname Sample.host (path_resolve Sample.host (cwd Sample.start) "my-app"))
  = None
  /\ fs_mkdir (Sample.failing_npm (Some 1%Z))
       (path_resolve Sample.host (cwd Sample.start) "my-app") = None
  /\ listed (fs_readdir (Sample.failing_npm (Some 1%Z))
               (path_resolve Sample.host (cwd Sample.start) "my-app")) = true
  /\ os_chdir (Sample.failing_npm (Some 1%Z))
       (path_resolve Sample.host (cwd Sample.start) "my-app") = None
  /\ cwd (proc_of (createApp Sample.host (Sample.failing_npm (Some 1%Z)) "my-app"
                     Sample.start)) = "/home/dev/my-app".
Proof.
  repeat (split; [reflexivity|]).
  rewrite (proj1 (working_directory_is_not_restored Sample.host
                    (Sample.failing_npm (Some 1%Z)) "my-app" Sample.start)
             eq_refl eq_refl eq_refl eq_refl).
  reflexivity.
Defined.

(** ** The rename callback, again *)

(** X8. The rename callback is not one-to-one, and these are its only
    collisions: two different source names get the same destination name
    exactly when one of them is the destination the rules give to the
    other ([gitignore] and [.gitignore], [eslintrc] and [.eslintrc],
    [README-template.md] and [README.md]). *)
Theorem rename_collisions (a b : string) :
  rename a = rename b
  <-> a = b \/ rename_rules !! a = Some b \/ rename_rules !! b = Some a.
Proof.
  split.
  - rewrite !rename_rules_lookup. unfold rename.
    destruct (String.eqb_spec a "gitignore") as [->|Ha1];
      [|destruct (String.eqb_spec a "eslintrc") as [->|Ha2];
        [|destruct (String.eqb_spec a "README-template.md") as [->|Ha3]]];
      (destruct (String.eqb_spec b "gitignore") as [->|Hb1];
       [|destruct (String.eqb_spec b "eslintrc") as [->|Hb2];
         [|destruct (String.eqb_spec b "README-template.md") as [->|Hb3]]]);
      cbn [orb]; intros Heq;
      first [ now left
            | discriminate Heq
            | right; left; now rewrite <- Heq
            | right; right; now rewrite Heq
            | left; exact Heq ].
  - assert (Hrule : forall k v, rename_rules !! k = Some v -> rename k = rename v).
    { intros k v. rewrite rename_rules_lookup.
      destruct (String.eqb_spec k "gitignore") as [->|?];
        [intros [= <-]; reflexivity|].
      destruct (String.eqb_spec k "eslintrc") as [->|?];
        [intros [= <-]; reflexivity|].
      destruct (String.eqb_spec k "README-template.md") as [->|?];
        [intros [= <-]; reflexivity|discriminate]. }
    intros [-> | [Hab | Hba]]; [reflexivity|now apply Hrule|].
    symmetry. now apply Hrule.
Qed.

Lemma rename_collisions_witness :
  rename "gitignore" = rename ".gitignore"
  /\ "gitignore" <> ".gitignore"
  /\ rename_rules !! "gitignore" = Some ".gitignore".
Proof.
  split; [reflexivity|]. split; [discriminate|].
  destruct (proj1 (rename_collisions "gitignore" ".gitignore") eq_refl)
    as [Heq | [Hab | Hba]].
  - discriminate Heq.
  - exact Hab.
  - vm_compute in Hba. discriminate Hba.
Defined.

(** ** The argument, the validated name and the manifest *)

(** X9. Blanks around the argument do not matter: the run on an
    argument is the run on the trimmed argument (for a trim that leaves a
    trimmed text as it is). *)
Theorem argument_is_trimmed (H : Host) (W : World) (projectPath : string)
    (p : Proc) :
  str_trim H (str_trim H projectPath) = str_trim H projectPath ->
  main H W (str_trim H projectPath) p = main H W projectPath p.
Proof.
  intros Hidem. unfold main, run. cbv zeta. rewrite Hidem. reflexivity.
Qed.

Lemma argument_is_trimmed_witness :
  str_trim Sample.host (str_trim Sample.host "  my-app ")
  = str_trim Sample.host "  my-app "
  /\ main Sample.host Sample.read_only "my-app" Sample.start
     = main Sample.host Sample.read_only "  my-app " Sample.start.
Proof.
  split; [reflexivity|].
  exact (argument_is_trimmed Sample.host Sample.read_only "  my-app " Sample.start
           eq_refl).
Defined.

(** X10. A manifest is written only for a name that passed validation,
    and it carries that very name: whenever the run writes a file, the
    validator accepted the base name of the resolved path, the file is
    [package.json] under that path, and its text is the manifest of that
    name (for a [path.resolve] that leaves a resolved path as it is). *)
Theorem manifest_carries_validated_name (H : Host) (W : World)
    (projectPath : string) (p : Proc) (path data : string) :
  let resolved := path_resolve H (cwd p) (str_trim H projectPath) in
  path_resolve H (cwd p) resolved = resolved ->
  In (FsWriteFile path data) (trace_of (main H W projectPath p)) ->
  validForNewPackages (validateProjectName H (path_basename H resolved)) = true
  /\ path = path_join H [resolved; "package.json"]
  /\ data = manifest_text (path_basename H resolved) +:+ os_EOL H.
Proof.
  intros resolved Hidem Hin.
  assert (Hin' : In (FsWriteFile path data)
                    (writes (effects (trace_of (main H W projectPath p))))).
  { rewrite writes_effects. apply List.filter_In. split; [exact Hin|reflexivity]. }
  destruct (main_summary H W projectPath p) as (Heff & _). rewrite Heff in Hin'.
  unfold reaches_createApp in Hin'. fold resolved in Hin'.
  destruct (ToBoolean (JsStr (str_trim H projectPath))); [|destruct Hin'].
  destruct (validForNewPackages (validateProjectName H (path_basename H resolved)));
    [|destruct Hin'].
  split; [reflexivity|].
  cbn [andb] in Hin'. rewrite createApp_effects, Hidem in Hin'.
  assert (Hwritten : FsWriteFile (manifest_path H resolved) (manifest_data H resolved)
                     = FsWriteFile path data).
  { unfold steps_done in Hin'. revert Hin'.
    steps_cases H W resolved; cbn; intros Hin'; intuition. }
  injection Hwritten as <- <-.
  split; [reflexivity|].
  unfold manifest_data. now rewrite manifest_is_indented_json.
Qed.

Lemma manifest_carries_validated_name_witness :
  path_resolve Sample.host (cwd Sample.start)
    (path_resolve Sample.host (cwd Sample.start) (str_trim Sample.host "my-app"))
  = path_resolve Sample.host (cwd Sample.start) (str_trim Sample.host "my-app")
  /\ In (FsWriteFile "/home/dev/my-app/package.json" (manifest_text "my-app" +:+ LF))
        (trace_of (main Sample.host Sample.fair_weather "my-app" Sample.start))
  /\ validForNewPackages (validateProjectName Sample.host "my-app") = true.
Proof.
  assert (Hin : In (FsWriteFile "/home/dev/my-app/package.json"
                      (manifest_text "my-app" +:+ LF))
                   (trace_of (main Sample.host Sample.fair_weather "my-app"
                                Sample.start))).
  { apply (proj1 (List.filter_In is_write _ _)). left. vm_compute. reflexivity. }
  split; [reflexivity|]. split; [exact Hin|].
  exact (proj1 (manifest_carries_validated_name Sample.host Sample.fair_weather
                  "my-app" Sample.start _ _ eq_refl Hin)).
Defined.

Lemma quote_body_plain (s : string) : plain s = true -> Json.quote_body s = s.
Proof.
  induction s as [|c s IH]; [reflexivity|].
  cbn [plain Json.quote_body]. intros Hplain.
  apply andb_prop in Hplain as [Hc Hs]. rewrite (IH Hs).
  unfold plain_char in Hc. apply andb_prop in Hc as [Hc Hbackslash].
  apply andb_prop in Hc as [Hlow Hquote].
  unfold Json.quote_char.
  apply negb_true_iff in Hquote. apply negb_true_iff in Hbackslash.
  rewrite Hquote, Hbackslash.
  apply Nat.leb_le in Hlow.
  repeat match goal with
         | |- context [Nat.eqb (nat_of_ascii c) ?k] =>
             destruct (Nat.eqb_spec (nat_of_ascii c) k); [lia|]
         end.
  destruct (Nat.ltb_spec (nat_of_ascii c) 32); [lia|]. reflexivity.
Qed.

(** X11. A project name without control characters, double quotes and
    backslashes is written into the manifest as it is, between double
    quotes; nothing in it is escaped. *)
Theorem plain_name_is_written_verbatim (H : Host) (root : string) :
  plain (path_basename H root) = true ->
  Json.quote (path_basename H root) = dquote +:+ path_basename H root +:+ dquote
  /\ manifest_data H root
     = "{" +:+ LF +:+ "  " +:+ dquote +:+ "name" +:+ dquote +:+ ": "
       +:+ dquote +:+ path_basename H root +:+ dquote +:+ manifest_rest
       +:+ os_EOL H.
Proof.
  intros Hplain.
  assert (Hquote : Json.quote (path_basename H root)
                   = dquote +:+ path_basename H root +:+ dquote).
  { unfold Json.quote. now rewrite (quote_body_plain _ Hplain). }
  split; [exact Hquote|].
  unfold manifest_data. rewrite manifest_is_indented_json.
  unfold manifest_text. fold manifest_rest. rewrite Hquote.
  rewrite !string_app_assoc. reflexivity.
Qed.

Lemma plain_name_is_written_verbatim_witness :
  plain (path_basename Sample.host "/home/dev/my-app") = true
  /\ Json.quote (path_basename Sample.host "/home/dev/my-app")
     = dquote +:+ "my-app" +:+ dquote.
Proof.
  split; [reflexivity|].
  rewrite (proj1 (plain_name_is_written_verbatim Sample.host "/home/dev/my-app"
                    eq_refl)).
  reflexivity.
Defined.

(** ** The processes of a run *)

(** X12. A run starts [npm] for full installs only: every process in
    the trace of a run is [npm] with the runtime or the development
    command line, so the argument-less [npm] of an install without
    packages is never started from the command line run. *)
Theorem run_spawns_full_installs_only (H : Host) (W : World)
    (projectPath : string) (p : Proc) (command stdio : string)
    (args : list string) (env : gmap string string) :
  In (Spawn command args stdio env) (trace_of (main H W projectPath p)) ->
  command = "npm"
  /\ (args = runtime_args \/ args = development_args)
  /\ args <> []
  /\ env = child_env H.
Proof.
  intros Hin.
  assert (Hin' : In (Spawn command args stdio env)
                    (effects (trace_of (main H W projectPath p)))).
  { apply List.filter_In. split; [exact Hin|reflexivity]. }
  destruct (main_summary H W projectPath p) as (Heff & _). rewrite Heff in Hin'.
  destruct (reaches_createApp H projectPath p); [|destruct Hin'].
  rewrite createApp_effects in Hin'.
  set (root := path_resolve H (cwd p)
                 (path_resolve H (cwd p) (str_trim H projectPath))) in Hin'.
  assert (Hspawn : Spawn "npm" runtime_args "inherit" (child_env H)
                   = Spawn command args stdio env
                   \/ Spawn "npm" development_args "inherit" (child_env H)
                      = Spawn command args stdio env).
  { unfold steps_done in Hin'. revert Hin'.
    steps_cases H W root; cbn; intros Hin'; intuition discriminate. }
  destruct Hspawn as [Heq | Heq]; injection Heq as <- <- <- <-;
    repeat split; first [now left | now right | discriminate].
Qed.

Lemma run_spawns_full_installs_only_witness :
  In (Spawn "npm" runtime_args "inherit" (child_env Sample.host))
     (trace_of (main Sample.host Sample.fair_weather "my-app" Sample.start))
  /\ runtime_args <> [].
Proof.
  assert (Hin : In (Spawn "npm" runtime_args "inherit" (child_env Sample.host))
                   (trace_of (main Sample.host Sample.fair_weather "my-app"
                                Sample.start))).
  { apply (proj1 (List.filter_In is_spawn _ _)). left. reflexivity. }
  split; [exact Hin|].
  exact (proj1 (proj2 (proj2 (run_spawns_full_installs_only _ _ _ _ _ _ _ _ Hin)))).
Defined.

(** ** The closing lines of the output *)

Lemma main_trace_of_reached_run (H : Host) (W : World) (projectPath : string)
    (p : Proc) :
  reaches_createApp H projectPath p = true ->
  trace_of (main H W projectPath p)
  = run_banner H projectPath p
    ++ trace_of (createApp H W (path_resolve H (cwd p) (str_trim H projectPath)) p)
    ++ match outcome_of (createApp H W
                           (path_resolve H (cwd p) (str_trim H projectPath)) p) with
       | Ret _ => setup_complete_report H
       | Throw r =>
           if ToBoolean (reason_command r)
           then command_failure_report H (text_of (reason_command r))
           else unexpected_error_report H r
       | Exit _ => []
       end.
Proof.
  intros Hreach. unfold reaches_createApp in Hreach.
  apply andb_prop in Hreach as [Hpath Hvalid].
  unfold run_banner, setup_complete_report, command_failure_report,
    unexpected_error_report.
  unfold_cli. rewrite Hpath, Hvalid. cbv beta iota.
  destruct (createApp H W _ p) as [[t q] [[]|r|code]]; cbv beta iota.
  - cbn [app]. rewrite ?app_nil_r. reflexivity.
  - destruct (ToBoolean (reason_command r)); cbn [app]; rewrite ?app_nil_r; reflexivity.
  - cbn [app]. rewrite ?app_nil_r. reflexivity.
Qed.

(** X13. A run whose orchestrator resolved closes its output with the
    line [Setup Complete] and returns; before that the orchestrator has
    told the user where to change to: the bare project name when the
    target lies directly under the directory the command was started in,
    the path it was given otherwise. *)
Theorem success_is_announced (H : Host) (W : World) (projectPath : string)
    (p : Proc) :
  let resolved := path_resolve H (cwd p) (str_trim H projectPath) in
  reaches_createApp H projectPath p = true ->
  outcome_of (createApp H W resolved p) = Ret tt ->
  outcome_of (main H W projectPath p) = Ret tt
  /\ trace_of (main H W projectPath p)
     = run_banner H projectPath p
       ++ trace_of (createApp H W resolved p)
       ++ setup_complete_report H
  /\ In (ConsoleLog [chalk_cyan H "  cd"; cd_hint H resolved p])
        (trace_of (createApp H W resolved p)).
Proof.
  intros resolved Hreach Hret.
  split; [rewrite main_outcome, Hreach; fold resolved; now rewrite Hret|].
  split; [rewrite (main_trace_of_reached_run H W projectPath p Hreach);
          fold resolved; now rewrite Hret|].
  revert Hret. unfold cd_hint. generalize resolved as appPath. clear. intros appPath.
  set (root := path_resolve H (cwd p) appPath).
  createApp_cases H W appPath p root
    ltac:(intros Hret;
          first [ discriminate Hret
                | repeat (first [left; reflexivity | right]) ]).
Qed.

Lemma success_is_announced_witness :
  reaches_createApp Sample.host "my-app" Sample.start = true
  /\ outcome_of (createApp Sample.host Sample.fair_weather
                   (path_resolve Sample.host (cwd Sample.start)
                      (str_trim Sample.host "my-app")) Sample.start) = Ret tt
  /\ In (ConsoleLog ["  cd"; "my-app"])
        (trace_of (createApp Sample.host Sample.fair_weather "/home/dev/my-app"
                     Sample.start)).
Proof.
  assert (Hret : outcome_of (createApp Sample.host Sample.fair_weather
                               (path_resolve Sample.host (cwd Sample.start)
                                  (str_trim Sample.host "my-app")) Sample.start)
                 = Ret tt) by (vm_compute; reflexivity).
  split; [reflexivity|]. split; [exact Hret|].
  exact (proj2 (proj2 (success_is_announced Sample.host Sample.fair_weather "my-app"
                         Sample.start eq_refl Hret))).
Defined.

(** X14. A rejection that carries no command, as the failure of a file
    system call does, is reported as an unexpected error together with
    the reason itself, and the run exits with status 1. *)
Theorem unexpected_error_is_reported (H : Host) (W : World) (projectPath : string)
    (p : Proc) (r : reason) :
  let resolved := path_resolve H (cwd p) (str_trim H projectPath) in
  reaches_createApp H projectPath p = true ->
  outcome_of (createApp H W resolved p) = Throw r ->
  reason_command r = JsUndefined ->
  outcome_of (main H W projectPath p) = Exit 1%Z
  /\ trace_of (main H W projectPath p)
     = run_banner H projectPath p
       ++ trace_of (createApp H W resolved p)
       ++ unexpected_error_report H r.
Proof.
  intros resolved Hreach Hthrow Hcommand.
  split; [rewrite main_outcome, Hreach; fold resolved; now rewrite Hthrow|].
  rewrite (main_trace_of_reached_run H W projectPath p Hreach). fold resolved.
  rewrite Hthrow, Hcommand. reflexivity.
Qed.

Lemma unexpected_error_is_reported_witness :
  reaches_createApp Sample.host "my-app" Sample.start = true
  /\ outcome_of (createApp Sample.host mkdir_fails
                   (path_resolve Sample.host (cwd Sample.start)
                      (str_trim Sample.host "my-app")) Sample.start)
     = Throw (FsFailure "mkdir" (EOTHER "ENOSPC") "/home/dev/my-app")
  /\ reason_command (FsFailure "mkdir" (EOTHER "ENOSPC") "/home/dev/my-app")
     = JsUndefined
  /\ outcome_of (main Sample.host mkdir_fails "my-app" Sample.start) = Exit 1%Z.
Proof.
  assert (Hthrow : outcome_of (createApp Sample.host mkdir_fails
                                 (path_resolve Sample.host (cwd Sample.start)
                                    (str_trim Sample.host "my-app")) Sample.start)
                   = Throw (FsFailure "mkdir" (EOTHER "ENOSPC") "/home/dev/my-app"))
    by (vm_compute; reflexivity).
  split; [reflexivity|]. split; [exact Hthrow|]. split; [reflexivity|].
  exact (proj1 (unexpected_error_is_reported Sample.host mkdir_fails "my-app"
                  Sample.start _ eq_refl Hthrow eq_refl)).
Defined.
